(** * MCP tool call validation: handler and routes

    A shallow embedding of

    - [MCPToolCallValidationHandler] (the validation flow adapter), and
    - [validationIDUserGuard] and the two route handlers of [createMcpRouter]
      (packages/api/src/server/routes/mcp.ts),

    followed by the properties of the specification that concern them.

    The asynchronous functions are embedded in a state-and-exception monad
    over a [World]: every [await] is a sequential step, a rejected promise is
    a thrown [Error], and [try]/[catch] is [tryCatch].  The flow-state
    manager is an object handed to the handler; it is a parameter of the
    embedding (a record of operations over its own state), and every call
    made on it is appended to the world's call trace. *)

From Stdlib Require Import ZArith NArith Ascii String Lia.
From Stdlib Require Import Decimal DecimalPos DecimalZ DecimalString.
From stdpp Require Import base option list strings gmap.

Local Open Scope Z_scope.
Local Open Scope string_scope.

(** ** Values *)

(** [Record<string, unknown>]: a JSON-like value; objects keep their
    properties in insertion order. *)
Local Unset Elimination Schemes.
Inductive JsValue : Type :=
| JsNull
| JsBool (b : bool)
| JsNumber (n : Z)
| JsString (s : string)
| JsArray (items : list JsValue)
| JsObject (props : list (string * JsValue)).
Local Set Elimination Schemes.

(** Modelled from the spec: the error classes of the flow-state manager are
    not among the sources; [NotFound], [AlreadyExists], [InvalidTransition]
    and [StorageFailure] are the failures that section 7 of the
    specification names.  [JsError msg] is the source's own
    [new Error(msg)].  A value of this type is what [throw] throws and
    [catch] binds. *)
Inductive Error : Type :=
| JsError (message : string)
| NotFound
| AlreadyExists
| InvalidTransition
| StorageFailure (message : string).

(** [FlowMetadata] as built by [initiateValidationFlow]. *)
Record FlowMetadata : Type := mkFlowMetadata {
  userId : string;
  serverName : string;
  toolName : string;
  toolArguments : list (string * JsValue);
  state : string;
  timestamp : Z
}.

(** Modelled from the spec: the declaration of the flow record
    ([~/flow/types]) is not among the sources; section 4.2 of the
    specification lists what the view returned by [getFlowState] exposes:
    status, metadata, result, error.  The handler and the routes read
    [status] (compared with string literals), [metadata] and [error]. *)
Record FlowState : Type := mkFlowState {
  status : string;
  metadata : FlowMetadata;
  result : option bool;
  error : option Error
}.

(** ** The world and its monad *)

Inductive Outcome (A : Type) : Type :=
| Returned (a : A)
| Thrown (e : Error).
Arguments Returned {A} a.
Arguments Thrown {A} e.

(** One entry of the trace per call made on the manager object. *)
Inductive ManagerCall : Type :=
| CallCreateFlow (id type : string) (md : FlowMetadata) (ttl : Z)
| CallGetFlowState (id type : string)
| CallCompleteFlow (id type : string) (result : bool)
| CallFailFlow (id type : string) (err : Error).

(** Bodies passed to [res.json]. *)
Inductive Body : Type :=
| ErrorBody (error : string)
| SuccessBody
| StatusBody (status : string) (completed failed : bool) (error : option Error).

(** The Express response object: [res.status] sets the code, [res.json]
    sends a body. *)
Record Res : Type := mkRes {
  statusCode : Z;
  sent : option Body
}.

Definition freshRes : Res := {| statusCode := 200; sent := None |}.

Section WorldMonad.

(** The state of the flow-state manager. *)
Context {S : Type}.

Record World : Type := mkWorld {
  clock : nat -> Z;          (* successive readings of Date.now() *)
  ticks : nat;               (* readings taken so far *)
  entropy : nat -> Byte.byte; (* the bytes crypto.randomBytes hands out *)
  drawn : nat;               (* bytes handed out so far *)
  manager : S;
  calls : list ManagerCall;
  res : Res
}.

Definition M (A : Type) : Type := World -> Outcome A * World.

Definition ret {A} (a : A) : M A := fun w => (Returned a, w).

Definition throw {A} (e : Error) : M A := fun w => (Thrown e, w).

Definition bind {A B} (m : M A) (k : A -> M B) : M B :=
  fun w => match m w with
           | (Returned a, w') => k a w'
           | (Thrown e, w') => (Thrown e, w')
           end.

(** [try { body } catch (error) { handler error }] *)
Definition tryCatch {A} (body : M A) (handler : Error -> M A) : M A :=
  fun w => match body w with
           | (Returned a, w') => (Returned a, w')
           | (Thrown e, w') => handler e w'
           end.

End WorldMonad.

Arguments World S : clear implicits.
Arguments M S A : clear implicits.

Declare Scope mcp_scope.
Delimit Scope mcp_scope with mcp.
Notation "'let*' x ':=' m 'in' k" := (bind m (fun x => k))
  (at level 10, x name, m at level 100, k at level 200) : mcp_scope.
Local Open Scope mcp_scope.

(** ** Node primitives used by the handler *)

Section Primitives.

Context {S : Type}.

(** [Date.now()]: the next reading of the clock, in milliseconds. *)
Definition Date_now : M S Z :=
  fun w => (Returned (clock w (ticks w)),
            mkWorld (clock w) (Datatypes.S (ticks w)) (entropy w) (drawn w)
                    (manager w) (calls w) (res w)).

(** [crypto.randomBytes(n)]: the next [n] bytes of the entropy source. *)
Definition randomBytes (n : nat) : M S (list Byte.byte) :=
  fun w => (Returned (map (entropy w) (seq (drawn w) n)),
            mkWorld (clock w) (ticks w) (entropy w) (drawn w + n)%nat
                    (manager w) (calls w) (res w)).

(** [res.status(code)] *)
Definition res_status (code : Z) : M S unit :=
  fun w => (Returned tt,
            mkWorld (clock w) (ticks w) (entropy w) (drawn w)
                    (manager w) (calls w) (mkRes code (sent (res w)))).

(** [res.json(body)] *)
Definition res_json (body : Body) : M S unit :=
  fun w => (Returned tt,
            mkWorld (clock w) (ticks w) (entropy w) (drawn w)
                    (manager w) (calls w) (mkRes (statusCode (res w)) (Some body))).

End Primitives.

(** [String(n)] for an integral number below 1e21, as a template literal
    interpolates it: the decimal digits, with a leading minus sign for a
    negative number. *)
Definition numberToString (n : Z) : string := NilZero.string_of_int (Z.to_int n).

(** Reading a decimal numeral back ([Number(s)] on such a string). *)
Definition parseNumber (s : string) : option Z := Z.of_int <$> NilZero.int_of_string s.

(** [buf.toString('base64url')]: RFC 4648 section 5, without padding. *)
Module Base64Url.

Definition alphabet : string :=
  "ABCDEFGHIJKLMNOPQRSTUVWXYZabcdefghijklmnopqrstuvwxyz0123456789-_".

Definition encodeSextet (i : N) : ascii :=
  match String.get (N.to_nat i) alphabet with
  | Some c => c
  | None => "A"%char
  end.

Fixpoint indexOf (c : ascii) (s : string) : option N :=
  match s with
  | EmptyString => None
  | String d s' =>
      if Ascii.eqb c d then Some 0%N else N.succ <$> indexOf c s'
  end.

Definition decodeChar (c : ascii) : option N := indexOf c alphabet.

Fixpoint encode (bs : list Byte.byte) : string :=
  match bs with
  | [] => EmptyString
  | [b0] =>
      let n := (Byte.to_N b0 * 65536)%N in
      String (encodeSextet (n / 262144))
        (String (encodeSextet ((n / 4096) mod 64)) EmptyString)
  | [b0; b1] =>
      let n := (Byte.to_N b0 * 65536 + Byte.to_N b1 * 256)%N in
      String (encodeSextet (n / 262144))
        (String (encodeSextet ((n / 4096) mod 64))
           (String (encodeSextet ((n / 64) mod 64)) EmptyString))
  | b0 :: b1 :: b2 :: rest =>
      let n := (Byte.to_N b0 * 65536 + Byte.to_N b1 * 256 + Byte.to_N b2)%N in
      String (encodeSextet (n / 262144))
        (String (encodeSextet ((n / 4096) mod 64))
           (String (encodeSextet ((n / 64) mod 64))
              (String (encodeSextet (n mod 64)) (encode rest))))
  end.

Fixpoint decode (s : string) : option (list Byte.byte) :=
  match s with
  | EmptyString => Some []
  | String _ EmptyString => None
  | String c0 (String c1 EmptyString) =>
      s0 ← decodeChar c0; s1 ← decodeChar c1;
      let n := (s0 * 262144 + s1 * 4096)%N in
      b0 ← Byte.of_N (n / 65536);
      Some [b0]
  | String c0 (String c1 (String c2 EmptyString)) =>
      s0 ← decodeChar c0; s1 ← decodeChar c1; s2 ← decodeChar c2;
      let n := (s0 * 262144 + s1 * 4096 + s2 * 64)%N in
      b0 ← Byte.of_N (n / 65536);
      b1 ← Byte.of_N ((n / 256) mod 256);
      Some [b0; b1]
  | String c0 (String c1 (String c2 (String c3 rest))) =>
      s0 ← decodeChar c0; s1 ← decodeChar c1;
      s2 ← decodeChar c2; s3 ← decodeChar c3;
      let n := (s0 * 262144 + s1 * 4096 + s2 * 64 + s3)%N in
      b0 ← Byte.of_N (n / 65536);
      b1 ← Byte.of_N ((n / 256) mod 256);
      b2 ← Byte.of_N (n mod 256);
      bs ← decode rest;
      Some (b0 :: b1 :: b2 :: bs)
  end.

End Base64Url.

(** ** The flow-state manager, as the handler uses it *)

Module FlowStateManager.

(** Modelled from the spec: the class [FlowStateManager<boolean>]
    ([~/flow/manager]) is not among the sources.  The handler and the
    routes only call [getFlowState], [completeFlow] and [failFlow] on the
    object they are given; section 4.2 of the specification adds
    [createFlow].  Each operation acts on the manager's own state [S] and
    either returns or throws; what [completeFlow] and [failFlow] return is
    discarded by every caller. *)
Record t (S : Type) : Type := mk {
  createFlow : string -> string -> FlowMetadata -> Z -> S -> Outcome FlowState * S;
  getFlowState : string -> string -> S -> Outcome (option FlowState) * S;
  completeFlow : string -> string -> bool -> S -> Outcome unit * S;
  failFlow : string -> string -> Error -> S -> Outcome unit * S
}.
Arguments createFlow {S}.
Arguments getFlowState {S}.
Arguments completeFlow {S}.
Arguments failFlow {S}.

End FlowStateManager.

(** [await flowManager.op(...)]: the call is recorded in the trace, the
    manager's state is replaced by the one the operation leaves, and the
    outcome of the operation is the outcome of the [await]. *)
Definition invoke {S A} (c : ManagerCall) (op : S -> Outcome A * S) : M S A :=
  fun w =>
    let '(o, s') := op (manager w) in
    (o, mkWorld (clock w) (ticks w) (entropy w) (drawn w) s' (calls w ++ [c]) (res w)).

(** ** MCPToolCallValidationHandler *)

(** The [logger] calls of the source are not part of the embedding: they
    return nothing and no control flow depends on them. *)
Module MCPToolCallValidationHandler.

Definition FLOW_TYPE : string := "mcp_tool_validation".
Definition FLOW_TTL : Z := 10 * 60 * 1000.

Section Handler.

Context {S : Type}.

Definition generateValidationId (userId serverName toolName : string) : M S string :=
  let* now := Date_now in
  ret (userId +:+ ":" +:+ serverName +:+ ":" +:+ toolName +:+ ":" +:+ numberToString now).

Definition generateState : M S string :=
  let* buf := randomBytes 32 in
  ret (Base64Url.encode buf).

Definition initiateValidationFlow
    (userId serverName toolName : string)
    (toolArguments : list (string * JsValue)) : M S (string * FlowMetadata) :=
  let* validationId := generateValidationId userId serverName toolName in
  let* state := generateState in
  let* timestamp := Date_now in
  let flowMetadata :=
    {| userId := userId;
       serverName := serverName;
       toolName := toolName;
       toolArguments := toolArguments;
       state := state;
       timestamp := timestamp |} in
  ret (validationId, flowMetadata).

Definition completeValidationFlow
    (validationId : string) (flowManager : FlowStateManager.t S) : M S bool :=
  tryCatch
    (let* flowState :=
       invoke (CallGetFlowState validationId FLOW_TYPE)
              (FlowStateManager.getFlowState flowManager validationId FLOW_TYPE) in
     let* _ :=
       match flowState with
       | None => throw (JsError "Validation flow not found")
       | Some _ => ret tt
       end in
     let* _ :=
       invoke (CallCompleteFlow validationId FLOW_TYPE true)
              (FlowStateManager.completeFlow flowManager validationId FLOW_TYPE true) in
     ret true)
    (fun error =>
       let* _ :=
         invoke (CallFailFlow validationId FLOW_TYPE error)
                (FlowStateManager.failFlow flowManager validationId FLOW_TYPE error) in
       throw error).

Definition getFlowState
    (validationId : string) (flowManager : FlowStateManager.t S)
  : M S (option FlowMetadata) :=
  let* flowState :=
    invoke (CallGetFlowState validationId FLOW_TYPE)
           (FlowStateManager.getFlowState flowManager validationId FLOW_TYPE) in
  match flowState with
  | None => ret None
  | Some fs => ret (Some (metadata fs))
  end.

End Handler.

End MCPToolCallValidationHandler.

(** ** Routes (packages/api/src/server/routes/mcp.ts)

    The guard and the two route handlers are embedded as the functions they
    are; how Express chains a middleware and a handler is the framework's
    business and is not modelled.  As in the handler, [logger] calls are
    left out. *)

Module Express.

(** [req.user]: the object the authentication layer attaches, if any; its
    [id] may be missing. *)
Record User : Type := mkUser { id : option string }.

Record Request : Type := mkRequest {
  user : option User;
  validationId : string   (* req.params.validationId *)
}.

End Express.

(** [s.startsWith(search)] *)
Definition startsWith (s search : string) : bool := String.prefix search s.

(** Truthiness of an optional string: [undefined] and the empty string are
    falsy. *)
Definition truthy (s : option string) : bool :=
  match s with
  | None => false
  | Some s => negb (String.eqb s "")
  end.

Section Routes.

Context {S : Type}.

Definition validationIDUserGuard (req : Express.Request) : M S unit :=
  let user := Express.user req in
  let user_id := user ≫= Express.id in      (* user?.id *)
  if negb (truthy user_id) then
    let* _ := res_status 401 in
    res_json (ErrorBody "User not authenticated")
  else
    let validationId := Express.validationId req in
    if negb (startsWith validationId (default "" user_id +:+ ":")) then
      let* _ := res_status 403 in
      res_json (ErrorBody "Access denied")
    else ret tt.

(** The manager that [getFlowStateManager<boolean>()] returns. *)
Context (flowManager : FlowStateManager.t S).

(** Handler of [POST /validation/confirm/:validationId]. *)
Definition postValidationConfirm (req : Express.Request) : M S unit :=
  tryCatch
    (let validationId := Express.validationId req in
     let* flowState :=
       MCPToolCallValidationHandler.getFlowState validationId flowManager in
     match flowState with
     | None =>
         let* _ := res_status 404 in
         res_json (ErrorBody "Validation flow not found")
     | Some _ =>
         let* _ :=
           MCPToolCallValidationHandler.completeValidationFlow validationId flowManager in
         res_json SuccessBody
     end)
    (fun error =>
       let* _ := res_status 500 in
       res_json (ErrorBody "Failed to confirm validation")).

(** Handler of [GET /validation/status/:validationId]. *)
Definition getValidationStatus (req : Express.Request) : M S unit :=
  tryCatch
    (let validationId := Express.validationId req in
     let* flowState :=
       invoke (CallGetFlowState validationId "mcp_tool_validation")
              (FlowStateManager.getFlowState flowManager validationId
                 "mcp_tool_validation") in
     match flowState with
     | None =>
         let* _ := res_status 404 in
         res_json (ErrorBody "Validation flow not found")
     | Some fs =>
         res_json (StatusBody (status fs)
                     (String.eqb (status fs) "COMPLETED")
                     (String.eqb (status fs) "FAILED")
                     (error fs))
     end)
    (fun error =>
       let* _ := res_status 500 in
       res_json (ErrorBody "Failed to get validation status")).

End Routes.

(** ** A flow-state manager over a keyed store with expiry *)

(** Modelled from the spec: the flow-state manager and its store
    ([~/flow/manager]) are not among the sources.  Sections 3, 4.1 and 4.2
    of the specification give the record, the expiry rule and the four
    operations: records are keyed by [(id, type)], carry [expiresAt =
    createdAt + TTL], are absent once [expiresAt] has passed, and move only
    from PENDING to COMPLETED or FAILED. *)
Module SpecManager.

(** Modelled from the spec: the stored record of section 3, the view
    together with its creation and expiry times. *)
Record FlowRecord : Type := mkFlowRecord {
  view : FlowState;
  createdAt : Z;
  expiresAt : Z
}.

(** Modelled from the spec: the store, with the time against which expiry
    is checked. *)
Record State : Type := mkState {
  now : Z;
  store : gmap (string * string) FlowRecord
}.

(** Modelled from the spec: [get(id, type)] of the store (section 4.1), the
    record if present and not expired. *)
Definition get (id type : string) (st : State) : option FlowRecord :=
  match store st !! (id, type) with
  | Some r => if (expiresAt r <? now st)%Z then None else Some r
  | None => None
  end.

(** Modelled from the spec: [put(record)] of the store (section 4.1), with
    overwrite. *)
Definition put (id type : string) (r : FlowRecord) (st : State) : State :=
  {| now := now st; store := <[(id, type) := r]> (store st) |}.

(** Modelled from the spec: [createFlow] (section 4.2) registers a PENDING
    record that expires [ttl] after its creation, and fails with
    [AlreadyExists] if a live record has the key. *)
Definition createFlow (id type : string) (md : FlowMetadata) (ttl : Z) (st : State)
  : Outcome FlowState * State :=
  match get id type st with
  | Some _ => (Thrown AlreadyExists, st)
  | None =>
      let r := {| view := {| status := "PENDING"; metadata := md;
                             result := None; error := None |};
                  createdAt := now st;
                  expiresAt := (now st + ttl)%Z |} in
      (Returned (view r), put id type r st)
  end.

(** Modelled from the spec: [getFlowState] (section 4.2), a pass-through
    read. *)
Definition getFlowState (id type : string) (st : State)
  : Outcome (option FlowState) * State :=
  (Returned (view <$> get id type st), st).

(** Modelled from the spec: [completeFlow] (section 4.2) moves a PENDING
    record to COMPLETED and stores the result; it fails with [NotFound] if
    no live record exists and with [InvalidTransition] if the record is
    already terminal. *)
Definition completeFlow (id type : string) (result : bool) (st : State)
  : Outcome unit * State :=
  match get id type st with
  | None => (Thrown NotFound, st)
  | Some r =>
      if String.eqb (status (view r)) "PENDING" then
        let r' := {| view := {| status := "COMPLETED"; metadata := metadata (view r);
                                result := Some result; error := None |};
                     createdAt := createdAt r;
                     expiresAt := expiresAt r |} in
        (Returned tt, put id type r' st)
      else (Thrown InvalidTransition, st)
  end.

(** Modelled from the spec: [failFlow] (section 4.2) moves a PENDING record
    to FAILED and stores the error, with the error conditions of
    [completeFlow]. *)
Definition failFlow (id type : string) (err : Error) (st : State)
  : Outcome unit * State :=
  match get id type st with
  | None => (Thrown NotFound, st)
  | Some r =>
      if String.eqb (status (view r)) "PENDING" then
        let r' := {| view := {| status := "FAILED"; metadata := metadata (view r);
                                result := None; error := Some err |};
                     createdAt := createdAt r;
                     expiresAt := expiresAt r |} in
        (Returned tt, put id type r' st)
      else (Thrown InvalidTransition, st)
  end.

Definition manager : FlowStateManager.t State :=
  FlowStateManager.mk State createFlow getFlowState completeFlow failFlow.

Definition empty (t : Z) : State := {| now := t; store := ∅ |}.

End SpecManager.

(** A world for running the code: the clock starts at [t0] and advances one
    millisecond per reading, the entropy source hands out the bytes
    [0, 1, 2, ...] (modulo 256), nothing has been called or sent. *)
Definition byteOfNat (n : nat) : Byte.byte :=
  match Byte.of_N (N.of_nat n mod 256) with
  | Some b => b
  | None => Byte.x00
  end.

Definition startWorld {S} (t0 : Z) (s : S) : World S :=
  mkWorld (fun n => (t0 + Z.of_nat n)%Z) 0%nat byteOfNat 0%nat s [] freshRes.

(** A manager whose backing store cannot be reached: every operation throws
    a storage failure naming the operation. *)
Definition unreachableManager : FlowStateManager.t unit :=
  FlowStateManager.mk unit
    (fun _ _ _ _ s => (Thrown (StorageFailure "createFlow"), s))
    (fun _ _ s => (Thrown (StorageFailure "getFlowState"), s))
    (fun _ _ _ s => (Thrown (StorageFailure "completeFlow"), s))
    (fun _ _ _ s => (Thrown (StorageFailure "failFlow"), s)).

(** A manager that holds at most one flow, which is gone once it has been
    read (as when the flow expires between two reads): [getFlowState]
    returns the flow and forgets it, [completeFlow] and [failFlow] fail with
    [NotFound] when nothing is held. *)
Definition vanishingManager : FlowStateManager.t (option FlowState) :=
  FlowStateManager.mk (option FlowState)
    (fun _ _ _ _ s => (Thrown AlreadyExists, s))
    (fun _ _ s => (Returned s, None))
    (fun _ _ _ s => match s with
                    | Some _ => (Returned tt, s)
                    | None => (Thrown NotFound, s)
                    end)
    (fun _ _ _ s => match s with
                    | Some _ => (Returned tt, s)
                    | None => (Thrown NotFound, s)
                    end).

(** ** Notions used to state the properties *)

(** The world [w] after the manager calls [tr], which left the manager in
    state [s]. *)
Definition afterCalls {S} (w : World S) (s : S) (tr : list ManagerCall) : World S :=
  mkWorld (clock w) (ticks w) (entropy w) (drawn w) s (calls w ++ tr) (res w).

(** The world [w] once the response [r] has been sent. *)
Definition responded {S} (w : World S) (r : Res) : World S :=
  mkWorld (clock w) (ticks w) (entropy w) (drawn w) (manager w) (calls w) r.

(** [s.includes(c)] for a single character. *)
Fixpoint includes (s : string) (c : ascii) : bool :=
  match s with
  | EmptyString => false
  | String d s' => Ascii.eqb d c || includes s' c
  end.

(** Two flow records as the manager returns them that agree on everything
    except, possibly, the [state] token of their metadata. *)
Definition sameButState (fs1 fs2 : FlowState) : Prop :=
  status fs1 = status fs2 /\
  result fs1 = result fs2 /\
  error fs1 = error fs2 /\
  userId (metadata fs1) = userId (metadata fs2) /\
  serverName (metadata fs1) = serverName (metadata fs2) /\
  toolName (metadata fs1) = toolName (metadata fs2) /\
  toolArguments (metadata fs1) = toolArguments (metadata fs2) /\
  timestamp (metadata fs1) = timestamp (metadata fs2).

Definition optionSameButState (o1 o2 : option FlowState) : Prop :=
  match o1, o2 with
  | Some fs1, Some fs2 => sameButState fs1 fs2
  | None, None => True
  | _, _ => False
  end.

Section TokenOblivious.

Context {S : Type}.

(** Two runs of a manager operation agree: the states they leave are
    related, and they either throw the same error or return related
    values. *)
Definition agree {A} (RA : A -> A -> Prop) (R : S -> S -> Prop)
    (r1 r2 : Outcome A * S) : Prop :=
  R (snd r1) (snd r2) /\
  match fst r1, fst r2 with
  | Returned a1, Returned a2 => RA a1 a2
  | Thrown e1, Thrown e2 => e1 = e2
  | _, _ => False
  end.

(** A manager does not look at state tokens, with respect to a relation
    [R] between manager states that hold the same flows up to their
    tokens: from related states its operations agree. *)
Record tokenOblivious (m : FlowStateManager.t S) (R : S -> S -> Prop) : Prop := {
  oblivious_getFlowState : forall id type s1 s2, R s1 s2 ->
    agree optionSameButState R
      (FlowStateManager.getFlowState m id type s1)
      (FlowStateManager.getFlowState m id type s2);
  oblivious_completeFlow : forall id type b s1 s2, R s1 s2 ->
    agree eq R
      (FlowStateManager.completeFlow m id type b s1)
      (FlowStateManager.completeFlow m id type b s2);
  oblivious_failFlow : forall id type e s1 s2, R s1 s2 ->
    agree eq R
      (FlowStateManager.failFlow m id type e s1)
      (FlowStateManager.failFlow m id type e s2)
}.

End TokenOblivious.

(** Two stored records that agree on everything except, possibly, the state
    token. *)
Definition sameRecordButState (r1 r2 : SpecManager.FlowRecord) : Prop :=
  sameButState (SpecManager.view r1) (SpecManager.view r2) /\
  SpecManager.createdAt r1 = SpecManager.createdAt r2 /\
  SpecManager.expiresAt r1 = SpecManager.expiresAt r2.

(** Stores of the keyed manager that hold the same flows up to their state
    tokens, at the same time. *)
Definition sameStoreButState (st1 st2 : SpecManager.State) : Prop :=
  SpecManager.now st1 = SpecManager.now st2 /\
  forall k,
    match SpecManager.store st1 !! k, SpecManager.store st2 !! k with
    | Some r1, Some r2 => sameRecordButState r1 r2
    | None, None => True
    | _, _ => False
    end.

(** The ways an error arises inside the [try] block of
    [completeValidationFlow], from manager state [s]: the lookup throws, the
    lookup finds no flow, or [completeFlow] throws.  [raisesInside m id s e
    s' tr] gives the error [e], the manager state [s'] at that point and
    the calls [tr] made until then. *)
Inductive raisesInside {S} (m : FlowStateManager.t S) (validationId : string) (s : S)
  : Error -> S -> list ManagerCall -> Prop :=
| raises_lookup e s1 :
    FlowStateManager.getFlowState m validationId
      MCPToolCallValidationHandler.FLOW_TYPE s = (Thrown e, s1) ->
    raisesInside m validationId s e s1
      [CallGetFlowState validationId MCPToolCallValidationHandler.FLOW_TYPE]
| raises_not_found s1 :
    FlowStateManager.getFlowState m validationId
      MCPToolCallValidationHandler.FLOW_TYPE s = (Returned None, s1) ->
    raisesInside m validationId s (JsError "Validation flow not found") s1
      [CallGetFlowState validationId MCPToolCallValidationHandler.FLOW_TYPE]
| raises_complete fs s1 e s2 :
    FlowStateManager.getFlowState m validationId
      MCPToolCallValidationHandler.FLOW_TYPE s = (Returned (Some fs), s1) ->
    FlowStateManager.completeFlow m validationId
      MCPToolCallValidationHandler.FLOW_TYPE true s1 = (Thrown e, s2) ->
    raisesInside m validationId s e s2
      [CallGetFlowState validationId MCPToolCallValidationHandler.FLOW_TYPE;
       CallCompleteFlow validationId MCPToolCallValidationHandler.FLOW_TYPE true].

(** ** Sample data *)

(** A flow of user "u1" for tool "tool" of server "srv", stored with the
    given status and state token under the key
    [("u1:srv:tool:1", "mcp_tool_validation")] at time 5. *)
Definition sampleRecord (status token : string) : SpecManager.FlowRecord :=
  {| SpecManager.view :=
       {| status := status;
          metadata := {| userId := "u1"; serverName := "srv"; toolName := "tool";
                         toolArguments := [("a", JsNumber 1)];
                         state := token; timestamp := 1 |};
          result := if String.eqb status "COMPLETED" then Some true else None;
          error := None |};
     SpecManager.createdAt := 1;
     SpecManager.expiresAt := 600001 |}.

Definition sampleStore (status token : string) : SpecManager.State :=
  SpecManager.mkState 5
    {[ ("u1:srv:tool:1", "mcp_tool_validation") := sampleRecord status token ]}.

Definition sampleRequest : Express.Request :=
  Express.mkRequest (Some (Express.mkUser (Some "u1"))) "u1:srv:tool:1".

(** * Properties *)

Example initiate_example :
  fst (MCPToolCallValidationHandler.initiateValidationFlow "u1" "srv" "tool"
         [("a", JsNumber 1)] (startWorld 1700000000000 (SpecManager.empty 1700000000000)))
  = Returned ("u1:srv:tool:1700000000000",
              {| userId := "u1"; serverName := "srv"; toolName := "tool";
                 toolArguments := [("a", JsNumber 1)];
                 state := "AAECAwQFBgcICQoLDA0ODxAREhMUFRYXGBkaGxwdHh8";
                 timestamp := 1700000000001 |}).
Proof. vm_compute. reflexivity. Qed.

(** Test vectors for the encoding: the two characters that set the URL-safe
    alphabet apart, and the two short final groups. *)
Example base64url_vectors :
  Base64Url.encode [Byte.xfb; Byte.xff] = "-_8" /\
  Base64Url.encode [Byte.xff] = "_w" /\
  Base64Url.encode [Byte.x4d; Byte.x61; Byte.x6e] = "TWFu" /\
  Base64Url.decode "-_8" = Some [Byte.xfb; Byte.xff].
Proof. repeat split. Qed.

(** On the keyed manager, completing a validation flow that does not exist
    ends with the [NotFound] that [failFlow] throws. *)
Example complete_missing_flow :
  fst (MCPToolCallValidationHandler.completeValidationFlow "u1:srv:tool:1"
         SpecManager.manager (startWorld 5 (SpecManager.empty 5)))
  = Thrown NotFound.
Proof. reflexivity. Qed.

Module Base64UrlFacts.
Import Base64Url.

Lemma list_ind3 {A} (P : list A -> Prop) :
  P [] -> (forall a, P [a]) -> (forall a b, P [a; b]) ->
  (forall a b c l, P l -> P (a :: b :: c :: l)) ->
  forall l, P l.
Proof.
  intros H0 H1 H2 H3. fix IH 1.
  intros [|a [|b [|c l]]]; [exact H0 | exact (H1 a) | exact (H2 a b) | exact (H3 a b c l (IH l))].
Qed.

Lemma sextet_roundtrip (i : N) :
  (i < 64)%N -> decodeChar (encodeSextet i) = Some i.
Proof.
  intros Hi.
  rewrite <- (N2Nat.id i).
  assert (Hn : (N.to_nat i < 64)%nat) by lia.
  revert Hn. generalize (N.to_nat i) as n. intros n Hn.
  do 64 (destruct n as [|n]; [reflexivity|]).
  lia.
Qed.

Lemma byte_bound (b : Byte.byte) : (Byte.to_N b < 256)%N.
Proof. pose proof (Byte.to_N_bounded b). lia. Qed.

Ltac euclid := zify; Z.to_euclidean_division_equations; lia.

Lemma group3 (x0 x1 x2 : N) :
  (x0 < 256 -> x1 < 256 -> x2 < 256 ->
   let n := x0 * 65536 + x1 * 256 + x2 in
   n / 262144 < 64 /\
   (n / 262144) * 262144 + ((n / 4096) mod 64) * 4096
     + ((n / 64) mod 64) * 64 + n mod 64 = n /\
   n / 65536 = x0 /\ (n / 256) mod 256 = x1 /\ n mod 256 = x2)%N.
Proof. intros; subst n; repeat split; euclid. Qed.

Lemma group2 (x0 x1 : N) :
  (x0 < 256 -> x1 < 256 ->
   let n := x0 * 65536 + x1 * 256 in
   n / 262144 < 64 /\
   (n / 262144) * 262144 + ((n / 4096) mod 64) * 4096
     + ((n / 64) mod 64) * 64 = n /\
   n / 65536 = x0 /\ (n / 256) mod 256 = x1)%N.
Proof. intros; subst n; repeat split; euclid. Qed.

Lemma group1 (x0 : N) :
  (x0 < 256 ->
   let n := x0 * 65536 in
   n / 262144 < 64 /\
   ((n / 262144) * 262144 + ((n / 4096) mod 64) * 4096) / 65536 = x0)%N.
Proof. intros; subst n; repeat split; euclid. Qed.

Lemma mod64_lt (n : N) : (n mod 64 < 64)%N.
Proof. apply N.mod_lt. discriminate. Qed.

Lemma decode_encode (bs : list Byte.byte) : decode (encode bs) = Some bs.
Proof.
  induction bs as [|b0|b0 b1|b0 b1 b2 rest IH] using list_ind3.
  - reflexivity.
  - pose proof (group1 _ (byte_bound b0)) as (L0 & E0).
    cbn [encode decode].
    rewrite (sextet_roundtrip _ L0), (sextet_roundtrip _ (mod64_lt _)).
    cbn [mbind option_bind]. rewrite E0, Byte.of_to_N. reflexivity.
  - pose proof (group2 _ _ (byte_bound b0) (byte_bound b1)) as (L0 & En & E0 & E1).
    cbn [encode decode].
    rewrite (sextet_roundtrip _ L0), !(sextet_roundtrip _ (mod64_lt _)).
    cbn [mbind option_bind]. rewrite En, E0, E1, !Byte.of_to_N. reflexivity.
  - pose proof (group3 _ _ _ (byte_bound b0) (byte_bound b1) (byte_bound b2))
      as (L0 & En & E0 & E1 & E2).
    cbn [encode decode].
    rewrite (sextet_roundtrip _ L0), !(sextet_roundtrip _ (mod64_lt _)).
    cbn [mbind option_bind]. rewrite En, E0, E1, E2, !Byte.of_to_N, IH. reflexivity.
Qed.

Lemma encode_length (bs : list Byte.byte) :
  String.length (encode bs) = ((4 * length bs + 2) / 3)%nat.
Proof.
  induction bs as [|b0|b0 b1|b0 b1 b2 rest IH] using list_ind3.
  - reflexivity.
  - reflexivity.
  - reflexivity.
  - cbn [encode String.length length]. rewrite IH.
    replace (4 * S (S (S (length rest))) + 2)%nat with (4 * length rest + 2 + 4 * 3)%nat by lia.
    rewrite Nat.div_add by lia. lia.
Qed.

Lemma encodeSextet_not_pad (i : N) : Ascii.eqb (encodeSextet i) "=" = false.
Proof.
  unfold encodeSextet. generalize (N.to_nat i) as n. intros n.
  do 64 (destruct n as [|n]; [reflexivity|]). reflexivity.
Qed.

Lemma encode_no_padding (bs : list Byte.byte) : includes (encode bs) "=" = false.
Proof.
  induction bs as [|b0|b0 b1|b0 b1 b2 rest IH] using list_ind3;
    cbn [encode includes]; rewrite ?encodeSextet_not_pad, ?IH; reflexivity.
Qed.

End Base64UrlFacts.

(** ** Strings *)

Section StringFacts.

Lemma startsWith_append (a b : string) : startsWith (a +:+ b) a = true.
Proof.
  unfold startsWith. induction a as [|c a IH]; simpl.
  - destruct b; reflexivity.
  - destruct (ascii_dec c c); [exact IH | congruence].
Qed.

Lemma append_assoc (a b c : string) : (a +:+ b) +:+ c = a +:+ (b +:+ c).
Proof.
  induction a as [|x a IH]; [reflexivity|].
  change (String x ((a +:+ b) +:+ c) = String x (a +:+ (b +:+ c))).
  now rewrite IH.
Qed.

Lemma numberToString_parse (n : Z) : parseNumber (numberToString n) = Some n.
Proof.
  unfold parseNumber, numberToString.
  rewrite NilZero.isi.
  - simpl. now rewrite DecimalZ.of_to.
  - destruct n; simpl; try discriminate.
    intros [= H]. now apply Unsigned.to_uint_nonnil in H.
  - destruct n; simpl; try discriminate.
    intros [= H]. now apply Unsigned.to_uint_nonnil in H.
Qed.

(** A colon-free name followed by a colon is a prefix of another such
    string only if the two names are the same. *)
Lemma prefix_cons (a b : ascii) (s1 s2 : string) :
  String.prefix (String a s1) (String b s2) = Ascii.eqb a b && String.prefix s1 s2.
Proof.
  cbn [String.prefix]. destruct (ascii_dec a b) as [->|Hne].
  - now rewrite Ascii.eqb_refl.
  - apply Ascii.eqb_neq in Hne. now rewrite Hne.
Qed.

Lemma append_nil (b : string) : "" +:+ b = b.
Proof. reflexivity. Qed.

Lemma append_cons (c : ascii) (a b : string) : String c a +:+ b = String c (a +:+ b).
Proof. reflexivity. Qed.

(** A colon-free name followed by a colon is a prefix of another such
    string only if the two names are the same. *)
Lemma startsWith_owner_inj (u2 u1 tail : string) :
  includes u1 ":" = false -> includes u2 ":" = false ->
  startsWith (u1 +:+ ":" +:+ tail) (u2 +:+ ":") = true -> u1 = u2.
Proof.
  unfold startsWith. revert u1.
  induction u2 as [|c u2 IH]; intros [|d u1] H1 H2 Hp;
    cbn [includes] in *; rewrite ?append_nil, ?append_cons in Hp.
  - reflexivity.
  - rewrite prefix_cons in Hp. apply andb_true_iff in Hp as [Hc _].
    apply orb_false_iff in H1 as [Hd _].
    rewrite Ascii.eqb_sym in Hc. congruence.
  - rewrite prefix_cons in Hp. apply andb_true_iff in Hp as [Hc _].
    apply orb_false_iff in H2 as [Hd _]. congruence.
  - rewrite prefix_cons in Hp. apply andb_true_iff in Hp as [Hc Hp].
    apply orb_false_iff in H1 as [_ H1]. apply orb_false_iff in H2 as [_ H2].
    apply Ascii.eqb_eq in Hc as ->. f_equal. now apply IH.
Qed.

End StringFacts.

(** ** Running the handler *)

Section HandlerFacts.

Context {S : Type}.

Lemma generateValidationId_run (u s t : string) (w : World S) :
  MCPToolCallValidationHandler.generateValidationId u s t w =
  (Returned (u +:+ ":" +:+ s +:+ ":" +:+ t +:+ ":" +:+ numberToString (clock w (ticks w))),
   mkWorld (clock w) (Datatypes.S (ticks w)) (entropy w) (drawn w)
           (manager w) (calls w) (res w)).
Proof. reflexivity. Qed.

Lemma initiateValidationFlow_run (u s t : string) (args : list (string * JsValue))
    (w : World S) :
  MCPToolCallValidationHandler.initiateValidationFlow u s t args w =
  (Returned
     (u +:+ ":" +:+ s +:+ ":" +:+ t +:+ ":" +:+ numberToString (clock w (ticks w)),
      {| userId := u; serverName := s; toolName := t; toolArguments := args;
         state := Base64Url.encode (map (entropy w) (seq (drawn w) 32));
         timestamp := clock w (Datatypes.S (ticks w)) |}),
   mkWorld (clock w) (Datatypes.S (Datatypes.S (ticks w))) (entropy w) (drawn w + 32)%nat
           (manager w) (calls w) (res w)).
Proof. reflexivity. Qed.

End HandlerFacts.

(** ** The validation identifier and the metadata *)

Section Initiate.

Context {S : Type}.

(** C3: the validationId that [initiateValidationFlow] returns is exactly
    [userId:serverName:toolName:timestamp], where the timestamp is the
    clock's current reading in milliseconds written in decimal; it starts
    with [userId:]. *)
Theorem initiateValidationFlow_validationId_format
    (userId serverName toolName : string) (toolArguments : list (string * JsValue))
    (w : World S) :
  let now := clock w (ticks w) in
  let validationId :=
    userId +:+ ":" +:+ serverName +:+ ":" +:+ toolName +:+ ":" +:+ numberToString now in
  (exists flowMetadata w',
      MCPToolCallValidationHandler.initiateValidationFlow
        userId serverName toolName toolArguments w
      = (Returned (validationId, flowMetadata), w')) /\
  parseNumber (numberToString now) = Some now /\
  startsWith validationId (userId +:+ ":") = true.
Proof.
  intros now validationId. split; [|split].
  - rewrite initiateValidationFlow_run. eauto.
  - apply numberToString_parse.
  - subst validationId. rewrite <- append_assoc. apply startsWith_append.
Qed.

(** C4: the metadata that [initiateValidationFlow] returns carries the
    four arguments unchanged, a state token that is the unpadded URL-safe
    base64 encoding of 32 bytes drawn from the random source (43
    characters, decoding to exactly those 32 bytes), and a timestamp read
    from the clock. *)
Theorem initiateValidationFlow_metadata
    (userId serverName toolName : string) (toolArguments : list (string * JsValue))
    (w : World S) :
  let bytes := map (entropy w) (seq (drawn w) 32) in
  (exists validationId w',
      MCPToolCallValidationHandler.initiateValidationFlow
        userId serverName toolName toolArguments w
      = (Returned (validationId,
                   mkFlowMetadata userId serverName toolName toolArguments
                     (Base64Url.encode bytes) (clock w (Datatypes.S (ticks w)))),
         w')) /\
  length bytes = 32%nat /\
  Base64Url.decode (Base64Url.encode bytes) = Some bytes /\
  String.length (Base64Url.encode bytes) = 43%nat /\
  includes (Base64Url.encode bytes) "=" = false.
Proof.
  intros bytes.
  assert (Hlen : length bytes = 32%nat)
    by (subst bytes; now rewrite length_map, length_seq).
  split; [|split; [|split; [|split]]].
  - rewrite initiateValidationFlow_run. eauto.
  - exact Hlen.
  - apply Base64UrlFacts.decode_encode.
  - rewrite Base64UrlFacts.encode_length, Hlen. reflexivity.
  - apply Base64UrlFacts.encode_no_padding.
Qed.

(** C1, as amended: [initiateValidationFlow] always returns, and it makes
    no call on the flow-state manager: the manager's state and the trace
    of calls are as they were.  The flow type is "mcp_tool_validation"
    and the TTL constant is 600000 ms. *)
Theorem initiateValidationFlow_registers_nothing
    (userId serverName toolName : string) (toolArguments : list (string * JsValue))
    (w : World S) :
  let r := MCPToolCallValidationHandler.initiateValidationFlow
             userId serverName toolName toolArguments w in
  (exists v, fst r = Returned v) /\
  manager (snd r) = manager w /\
  calls (snd r) = calls w /\
  MCPToolCallValidationHandler.FLOW_TYPE = "mcp_tool_validation" /\
  MCPToolCallValidationHandler.FLOW_TTL = 600000.
Proof.
  intros r. subst r. rewrite initiateValidationFlow_run.
  cbn [fst snd manager calls]. split; [eauto|]. repeat split.
Qed.

(** C2, as amended: for user ids that contain no colon, the validationId
    generated for [u1] (whatever the server and tool names, colons
    included) passes the ownership check [startsWith(u + ":")] for
    [u = u1] and fails it for every other user id [u2]. *)
Theorem generateValidationId_owner_prefix
    (u1 u2 serverName toolName : string) (w : World S) :
  includes u1 ":" = false -> includes u2 ":" = false -> u1 <> u2 ->
  exists validationId w',
    MCPToolCallValidationHandler.generateValidationId u1 serverName toolName w
    = (Returned validationId, w') /\
    startsWith validationId (u1 +:+ ":") = true /\
    startsWith validationId (u2 +:+ ":") = false.
Proof.
  intros H1 H2 Hne. rewrite generateValidationId_run.
  eexists _, _. split; [reflexivity|]. split.
  - rewrite <- append_assoc. apply startsWith_append.
  - destruct (startsWith _ (u2 +:+ ":")) eqn:Hp; [|reflexivity].
    exfalso. apply Hne. eapply startsWith_owner_inj; eauto.
Qed.

End Initiate.

(** C1, as stated, fails: after [initiateValidationFlow("u1", "srv", "tool",
    {a: 1})] on an empty store no [createFlow] call has been made and the
    store holds no record under the returned validationId. *)
Lemma initiateValidationFlow_creates_no_flow :
  let w := startWorld 1700000000000 (SpecManager.empty 1700000000000) in
  let r := MCPToolCallValidationHandler.initiateValidationFlow
             "u1" "srv" "tool" [("a", JsNumber 1)] w in
  (exists md, fst r = Returned ("u1:srv:tool:1700000000000", md)) /\
  (forall md ttl,
      ~ In (CallCreateFlow "u1:srv:tool:1700000000000" "mcp_tool_validation" md ttl)
           (calls (snd r))) /\
  fst (SpecManager.getFlowState "u1:srv:tool:1700000000000" "mcp_tool_validation"
         (manager (snd r))) = Returned None.
Proof.
  cbv zeta. rewrite initiateValidationFlow_run. cbn [fst snd calls manager startWorld].
  split; [|split].
  - eexists. vm_compute. reflexivity.
  - intros md ttl [].
  - reflexivity.
Qed.

(** C2, as stated, fails when a user id contains the separator: the
    validationId generated for user "a:b" passes the ownership check of
    the different user "a". *)
Lemma generateValidationId_prefix_shared :
  "a:b" <> "a" /\
  exists w',
    MCPToolCallValidationHandler.generateValidationId "a:b" "srv" "tool"
      (startWorld 1700000000000 tt)
    = (Returned "a:b:srv:tool:1700000000000", w') /\
    startsWith "a:b:srv:tool:1700000000000" ("a" +:+ ":") = true.
Proof.
  split; [discriminate|]. eexists. split; reflexivity.
Qed.

Lemma generateValidationId_owner_prefix_witness :
  includes "u1" ":" = false /\ includes "u2" ":" = false /\ "u1" <> "u2" /\
  exists validationId w',
    MCPToolCallValidationHandler.generateValidationId "u1" "srv" "tool"
      (startWorld 1700000000000 tt)
    = (Returned validationId, w') /\
    startsWith validationId ("u1" +:+ ":") = true /\
    startsWith validationId ("u2" +:+ ":") = false.
Proof.
  split; [reflexivity|]. split; [reflexivity|]. split; [discriminate|].
  apply (generateValidationId_owner_prefix "u1" "u2" "srv" "tool"
           (startWorld 1700000000000 tt));
    [reflexivity | reflexivity | discriminate].
Defined.

(** ** Running calls on the manager *)

Section ManagerCalls.

Context {S : Type}.

Lemma invoke_run {A} (c : ManagerCall) (op : S -> Outcome A * S) (w : World S) :
  invoke c op w = (fst (op (manager w)), afterCalls w (snd (op (manager w))) [c]).
Proof. unfold invoke. destruct (op (manager w)); reflexivity. Qed.

Context (m : FlowStateManager.t S).

(** The [catch] block of [completeValidationFlow]. *)
Lemma completeValidationFlow_catch (validationId : string) (w : World S)
    (e : Error) (s1 : S) (tr : list ManagerCall) (r : Outcome unit) (s2 : S) :
  raisesInside m validationId (manager w) e s1 tr ->
  FlowStateManager.failFlow m validationId
    MCPToolCallValidationHandler.FLOW_TYPE e s1 = (r, s2) ->
  MCPToolCallValidationHandler.completeValidationFlow validationId m w
  = (Thrown (match r with Returned _ => e | Thrown e' => e' end),
     afterCalls w s2
       (tr ++ [CallFailFlow validationId MCPToolCallValidationHandler.FLOW_TYPE e])).
Proof.
  intros Hraise Hfail.
  unfold MCPToolCallValidationHandler.completeValidationFlow, tryCatch, bind.
  destruct Hraise as [e s1 Hget | s1 Hget | fs s1 e s2' Hget Hcomplete];
    rewrite !invoke_run, Hget; cbn [fst snd throw ret];
    rewrite ?invoke_run; cbn [manager afterCalls];
    rewrite ?Hcomplete; cbn [fst snd];
    rewrite ?invoke_run; cbn [manager afterCalls];
    rewrite Hfail; cbn [fst snd];
    destruct r; unfold throw, afterCalls; cbn;
    rewrite <- ?app_assoc; reflexivity.
Qed.

(** The [try] block of [completeValidationFlow] when nothing goes wrong. *)
Lemma completeValidationFlow_success (validationId : string) (w : World S)
    (fs : FlowState) (s1 s2 : S) (u : unit) :
  FlowStateManager.getFlowState m validationId
    MCPToolCallValidationHandler.FLOW_TYPE (manager w) = (Returned (Some fs), s1) ->
  FlowStateManager.completeFlow m validationId
    MCPToolCallValidationHandler.FLOW_TYPE true s1 = (Returned u, s2) ->
  MCPToolCallValidationHandler.completeValidationFlow validationId m w
  = (Returned true,
     afterCalls w s2
       [CallGetFlowState validationId MCPToolCallValidationHandler.FLOW_TYPE;
        CallCompleteFlow validationId MCPToolCallValidationHandler.FLOW_TYPE true]).
Proof.
  intros Hget Hcomplete.
  unfold MCPToolCallValidationHandler.completeValidationFlow, tryCatch, bind.
  rewrite !invoke_run, Hget; cbn [fst snd ret].
  rewrite invoke_run; cbn [manager afterCalls]. rewrite Hcomplete; cbn [fst snd].
  unfold ret, afterCalls; cbn. rewrite <- app_assoc. reflexivity.
Qed.

Lemma handler_getFlowState_run (validationId : string) (w : World S) :
  MCPToolCallValidationHandler.getFlowState validationId m w
  = (match fst (FlowStateManager.getFlowState m validationId
                  MCPToolCallValidationHandler.FLOW_TYPE (manager w)) with
     | Returned o => Returned (metadata <$> o)
     | Thrown e => Thrown e
     end,
     afterCalls w
       (snd (FlowStateManager.getFlowState m validationId
               MCPToolCallValidationHandler.FLOW_TYPE (manager w)))
       [CallGetFlowState validationId MCPToolCallValidationHandler.FLOW_TYPE]).
Proof.
  unfold MCPToolCallValidationHandler.getFlowState, bind. rewrite invoke_run.
  destruct (FlowStateManager.getFlowState m validationId _ (manager w)) as [[[fs|]|e] s1];
    reflexivity.
Qed.

End ManagerCalls.

(** ** Completing a validation flow *)

Section Complete.

Context {S : Type} (m : FlowStateManager.t S).

(** Whenever an error arises inside [completeValidationFlow] (the lookup
    throws, the flow is not found, or [completeFlow] throws), [failFlow] is
    called with that error on the same key, whatever that call then does.
    When the call returns, the original error is re-raised.  When the call
    itself throws, the [throw error] that follows it is not reached: the
    error of [failFlow] goes to the caller and the original error is lost. *)
Lemma completeValidationFlow_error_calls_failFlow
    (validationId : string) (w : World S)
    (e : Error) (s1 : S) (tr : list ManagerCall) :
  raisesInside m validationId (manager w) e s1 tr ->
  let marked := FlowStateManager.failFlow m validationId "mcp_tool_validation" e s1 in
  let out := MCPToolCallValidationHandler.completeValidationFlow validationId m w in
  snd out = afterCalls w (snd marked)
              (tr ++ [CallFailFlow validationId "mcp_tool_validation" e]) /\
  (forall u, fst marked = Returned u -> fst out = Thrown e) /\
  (forall e', fst marked = Thrown e' -> fst out = Thrown e').
Proof.
  intros Hraise marked out.
  pose proof (completeValidationFlow_catch m validationId w e s1 tr
                (fst marked) (snd marked) Hraise (surjective_pairing _)) as Hrun.
  subst out. rewrite Hrun. cbn [fst snd]. split; [reflexivity|]. split.
  - intros u ->. reflexivity.
  - intros e' ->. reflexivity.
Qed.

End Complete.

(** On the keyed manager [failFlow] fails with [NotFound] when no live
    record has the key, so there the not-found path of
    [completeValidationFlow] never re-throws its own error: whenever the
    lookup finds no flow, [failFlow] is called on the missing key and the
    caller receives the [NotFound] of [failFlow]. *)
Lemma completeValidationFlow_missing_flow_on_keyed_manager
    (validationId : string) (w : World SpecManager.State) :
  SpecManager.get validationId "mcp_tool_validation" (manager w) = None ->
  MCPToolCallValidationHandler.completeValidationFlow validationId SpecManager.manager w
  = (Thrown NotFound,
     afterCalls w (manager w)
       [CallGetFlowState validationId "mcp_tool_validation";
        CallFailFlow validationId "mcp_tool_validation"
          (JsError "Validation flow not found")]).
Proof.
  intros Hget.
  apply (completeValidationFlow_catch SpecManager.manager validationId w
           (JsError "Validation flow not found") (manager w)
           [CallGetFlowState validationId "mcp_tool_validation"]
           (Thrown NotFound) (manager w)).
  - apply raises_not_found.
    cbn [FlowStateManager.getFlowState SpecManager.manager].
    unfold SpecManager.getFlowState, MCPToolCallValidationHandler.FLOW_TYPE.
    rewrite Hget. reflexivity.
  - cbn [FlowStateManager.failFlow SpecManager.manager].
    unfold SpecManager.failFlow, MCPToolCallValidationHandler.FLOW_TYPE.
    rewrite Hget. reflexivity.
Qed.

(** C5: the claim has the original error reach the caller even when the
    [failFlow] call itself fails; the code loses it.  With a store that
    cannot be reached the lookup throws, [failFlow] is called with that
    error and throws its own, and it is the error of [failFlow] that
    reaches the caller, not the error of the lookup. *)
Lemma completeValidationFlow_failFlow_error_propagates :
  let out := MCPToolCallValidationHandler.completeValidationFlow
               "u1:srv:tool:1" unreachableManager (startWorld 0 tt) in
  fst (FlowStateManager.getFlowState unreachableManager
         "u1:srv:tool:1" "mcp_tool_validation" tt)
  = Thrown (StorageFailure "getFlowState") /\
  calls (snd out)
  = [CallGetFlowState "u1:srv:tool:1" "mcp_tool_validation";
     CallFailFlow "u1:srv:tool:1" "mcp_tool_validation" (StorageFailure "getFlowState")] /\
  fst out = Thrown (StorageFailure "failFlow") /\
  fst out <> Thrown (StorageFailure "getFlowState").
Proof.
  cbv zeta. repeat split. discriminate.
Qed.

(** C9: the claim has the not-found path call [failFlow] on the missing key
    and then re-throw "Validation flow not found"; the code makes the call
    but does not get to the re-throw when the call fails.  On the keyed
    manager with an empty store the lookup finds no flow, [failFlow] is
    called on the missing key with the not-found error and throws
    [NotFound], and that is the error the caller receives. *)
Lemma completeValidationFlow_not_found_error_lost :
  let w := startWorld 5 (SpecManager.empty 5) in
  let out := MCPToolCallValidationHandler.completeValidationFlow
               "u1:srv:tool:1" SpecManager.manager w in
  SpecManager.getFlowState "u1:srv:tool:1" "mcp_tool_validation" (SpecManager.empty 5)
  = (Returned None, SpecManager.empty 5) /\
  calls (snd out)
  = [CallGetFlowState "u1:srv:tool:1" "mcp_tool_validation";
     CallFailFlow "u1:srv:tool:1" "mcp_tool_validation"
       (JsError "Validation flow not found")] /\
  fst (SpecManager.failFlow "u1:srv:tool:1" "mcp_tool_validation"
         (JsError "Validation flow not found") (SpecManager.empty 5))
  = Thrown NotFound /\
  fst out = Thrown NotFound /\
  fst out <> Thrown (JsError "Validation flow not found").
Proof.
  cbv zeta.
  rewrite (completeValidationFlow_missing_flow_on_keyed_manager "u1:srv:tool:1"
             (startWorld 5 (SpecManager.empty 5)) eq_refl).
  repeat split. discriminate.
Qed.

(** ** The routes *)

Section RouteFacts.

Context {S : Type}.

(** C6: the guard tells its two rejections apart.  A request without a
    user, or whose user has no id (or an empty one), is answered 401 "User
    not authenticated"; a request with a caller id whose validationId does
    not start with [callerId:] is answered 403 "Access denied"; the two
    responses differ; and a request with a caller id whose validationId
    starts with [callerId:] gets no response from the guard. *)
Theorem validationIDUserGuard_responses (req : Express.Request) (w : World S) :
  let out := validationIDUserGuard req w in
  ((Express.user req = None \/
    exists u, Express.user req = Some u /\
              (Express.id u = None \/ Express.id u = Some "")) ->
   out = (Returned tt,
          responded w (mkRes 401 (Some (ErrorBody "User not authenticated"))))) /\
  (forall u callerId,
      Express.user req = Some u -> Express.id u = Some callerId -> callerId <> "" ->
      startsWith (Express.validationId req) (callerId +:+ ":") = false ->
      out = (Returned tt, responded w (mkRes 403 (Some (ErrorBody "Access denied"))))) /\
  (forall u callerId,
      Express.user req = Some u -> Express.id u = Some callerId -> callerId <> "" ->
      startsWith (Express.validationId req) (callerId +:+ ":") = true ->
      out = (Returned tt, w)) /\
  mkRes 401 (Some (ErrorBody "User not authenticated"))
  <> mkRes 403 (Some (ErrorBody "Access denied")).
Proof.
  intros out. subst out. unfold validationIDUserGuard.
  split; [|split; [|split]].
  - intros [Hu | (u & Hu & [Hid | Hid])]; rewrite Hu; cbn; rewrite ?Hid; reflexivity.
  - intros u callerId Hu Hid Hne Hprefix. rewrite Hu. cbn. rewrite Hid. cbn.
    apply String.eqb_neq in Hne. rewrite Hne. cbn. rewrite Hprefix. reflexivity.
  - intros u callerId Hu Hid Hne Hprefix. rewrite Hu. cbn. rewrite Hid. cbn.
    apply String.eqb_neq in Hne. rewrite Hne. cbn. rewrite Hprefix. reflexivity.
  - discriminate.
Qed.

Context (m : FlowStateManager.t S).

(** C7: when the manager returns a flow record, the status route answers
    with the object [{status, completed, failed, error}] (status code 200),
    where [completed] is true exactly when the status is "COMPLETED",
    [failed] is true exactly when it is "FAILED", and [error] is the
    record's error; when the manager returns no record it answers 404. *)
Theorem getValidationStatus_response (req : Express.Request) (w : World S) :
  res w = freshRes ->
  let lookup := FlowStateManager.getFlowState m (Express.validationId req)
                  "mcp_tool_validation" (manager w) in
  let out := getValidationStatus m req w in
  (forall fs, fst lookup = Returned (Some fs) ->
     exists completed failed,
       res (snd out) = mkRes 200 (Some (StatusBody (status fs) completed failed (error fs))) /\
       (completed = true <-> status fs = "COMPLETED") /\
       (failed = true <-> status fs = "FAILED")) /\
  (fst lookup = Returned None ->
     res (snd out) = mkRes 404 (Some (ErrorBody "Validation flow not found"))).
Proof.
  intros Hres lookup out. subst out lookup.
  unfold getValidationStatus, tryCatch, bind. rewrite invoke_run.
  split.
  - intros fs ->. cbn. rewrite Hres. cbn.
    exists (String.eqb (status fs) "COMPLETED"), (String.eqb (status fs) "FAILED").
    split; [reflexivity|]. split; apply String.eqb_eq.
  - intros ->. reflexivity.
Qed.

(** C10: when the metadata lookup of the confirm route returns null, the
    route answers 404 and the one call made on the manager is that lookup:
    neither [completeFlow] nor [failFlow] is invoked, and the manager is
    left in the state the lookup left it in (unchanged, when the read
    changes nothing). *)
Theorem postValidationConfirm_not_found (req : Express.Request) (w w1 : World S) :
  MCPToolCallValidationHandler.getFlowState (Express.validationId req) m w
  = (Returned None, w1) ->
  let lookup := FlowStateManager.getFlowState m (Express.validationId req)
                  "mcp_tool_validation" (manager w) in
  let out := postValidationConfirm m req w in
  out = (Returned tt,
         responded w1 (mkRes 404 (Some (ErrorBody "Validation flow not found")))) /\
  calls (snd out)
  = (calls w ++ [CallGetFlowState (Express.validationId req) "mcp_tool_validation"])%list /\
  manager (snd out) = snd lookup /\
  (snd lookup = manager w -> manager (snd out) = manager w).
Proof.
  intros Hlookup lookup out. subst out.
  unfold postValidationConfirm, tryCatch, bind. rewrite Hlookup.
  rewrite handler_getFlowState_run in Hlookup.
  injection Hlookup as _ <-.
  cbn. split; [reflexivity|]. split; [reflexivity|]. split; [reflexivity|].
  intros Hpure. exact Hpure.
Qed.

End RouteFacts.

Lemma validationIDUserGuard_responses_witness :
  let w := startWorld 0 tt in
  validationIDUserGuard
    (Express.mkRequest (Some (Express.mkUser (Some "u2"))) "u1:srv:tool:1") w
  = (Returned tt, responded w (mkRes 403 (Some (ErrorBody "Access denied")))).
Proof.
  cbv zeta.
  apply (proj1 (proj2 (validationIDUserGuard_responses
           (Express.mkRequest (Some (Express.mkUser (Some "u2"))) "u1:srv:tool:1")
           (startWorld 0 tt)))
           (Express.mkUser (Some "u2")) "u2");
    [reflexivity | reflexivity | discriminate | reflexivity].
Defined.

(** ** The state token and the responses *)

Section StateToken.

Context {S : Type} (m : FlowStateManager.t S).

(** The response of the confirm route, read off the outcomes of the calls
    it makes on the manager. *)
Lemma postValidationConfirm_res (req : Express.Request) (w : World S) :
  let validationId := Express.validationId req in
  let failed := mkRes 500 (Some (ErrorBody "Failed to confirm validation")) in
  res (snd (postValidationConfirm m req w)) =
  match FlowStateManager.getFlowState m validationId "mcp_tool_validation" (manager w) with
  | (Returned (Some _), s1) =>
      match FlowStateManager.getFlowState m validationId "mcp_tool_validation" s1 with
      | (Returned (Some _), s2) =>
          match FlowStateManager.completeFlow m validationId
                  "mcp_tool_validation" true s2 with
          | (Returned _, _) => mkRes (statusCode (res w)) (Some SuccessBody)
          | (Thrown _, _) => failed
          end
      | _ => failed
      end
  | (Returned None, _) => mkRes 404 (Some (ErrorBody "Validation flow not found"))
  | (Thrown _, _) => failed
  end.
Proof.
  intros validationId failed. subst validationId failed.
  unfold postValidationConfirm, MCPToolCallValidationHandler.getFlowState,
    MCPToolCallValidationHandler.completeValidationFlow,
    MCPToolCallValidationHandler.FLOW_TYPE, tryCatch, bind, invoke.
  destruct (FlowStateManager.getFlowState m _ _ (manager w)) as [[[fs|]|e] s1];
    cbn; try reflexivity.
  destruct (FlowStateManager.getFlowState m _ _ s1) as [[[fs'|]|e'] s2]; cbn.
  - destruct (FlowStateManager.completeFlow m _ _ true s2) as [[u|e3] s3]; cbn;
      [reflexivity|].
    destruct (FlowStateManager.failFlow m _ _ e3 s3) as [[u|e4] s4]; reflexivity.
  - destruct (FlowStateManager.failFlow m _ _ _ s2) as [[u|e4] s4]; reflexivity.
  - destruct (FlowStateManager.failFlow m _ _ e' s2) as [[u|e4] s4]; reflexivity.
Qed.

Lemma getValidationStatus_res (req : Express.Request) (w : World S) :
  res (snd (getValidationStatus m req w)) =
  match FlowStateManager.getFlowState m (Express.validationId req)
          "mcp_tool_validation" (manager w) with
  | (Returned (Some fs), _) =>
      mkRes (statusCode (res w))
        (Some (StatusBody (status fs) (String.eqb (status fs) "COMPLETED")
                 (String.eqb (status fs) "FAILED") (error fs)))
  | (Returned None, _) => mkRes 404 (Some (ErrorBody "Validation flow not found"))
  | (Thrown _, _) => mkRes 500 (Some (ErrorBody "Failed to get validation status"))
  end.
Proof.
  unfold getValidationStatus, tryCatch, bind, invoke.
  destruct (FlowStateManager.getFlowState m _ _ (manager w)) as [[[fs|]|e] s1];
    reflexivity.
Qed.

(** What [agree] says about two runs, case by case. *)
Lemma agree_inv {A} (RA : A -> A -> Prop) (R : S -> S -> Prop)
    (o1 o2 : Outcome A) (s1 s2 : S) :
  agree RA R (o1, s1) (o2, s2) ->
  R s1 s2 /\
  ((exists a1 a2, o1 = Returned a1 /\ o2 = Returned a2 /\ RA a1 a2) \/
   (exists e, o1 = Thrown e /\ o2 = Thrown e)).
Proof.
  intros [HR Ho]; cbn in *. split; [exact HR|].
  destruct o1 as [a1|e1], o2 as [a2|e2]; try contradiction.
  - left; eauto.
  - right; subst; eauto.
Qed.

(** C8: the state token reaches neither response.  Run against two
    managers' states that hold the same flows up to the state tokens in
    their metadata, with a manager that does not itself look at the
    token, the confirm route and the status route each send the same
    status code and the same body. *)
Theorem responses_independent_of_state_token
    (R : S -> S -> Prop) (req : Express.Request) (w1 w2 : World S) :
  tokenOblivious m R ->
  R (manager w1) (manager w2) ->
  res w1 = res w2 ->
  res (snd (postValidationConfirm m req w1))
  = res (snd (postValidationConfirm m req w2)) /\
  res (snd (getValidationStatus m req w1))
  = res (snd (getValidationStatus m req w2)).
Proof.
  intros Hm HR Hres. split.
  - rewrite !postValidationConfirm_res. cbv zeta. rewrite Hres.
    pose proof (oblivious_getFlowState m R Hm (Express.validationId req)
                  "mcp_tool_validation" _ _ HR) as H1.
    destruct (FlowStateManager.getFlowState m _ _ (manager w1)) as [o1 s1].
    destruct (FlowStateManager.getFlowState m _ _ (manager w2)) as [o1' s1'].
    apply agree_inv in H1 as [HR1 [(a & a' & -> & -> & Ha) | (e & -> & ->)]];
      [|reflexivity].
    destruct a as [fs|], a' as [fs'|]; try contradiction; [|reflexivity].
    pose proof (oblivious_getFlowState m R Hm (Express.validationId req)
                  "mcp_tool_validation" _ _ HR1) as H2.
    destruct (FlowStateManager.getFlowState m _ _ s1) as [o2 s2].
    destruct (FlowStateManager.getFlowState m _ _ s1') as [o2' s2'].
    apply agree_inv in H2 as [HR2 [(b & b' & -> & -> & Hb) | (e & -> & ->)]];
      [|reflexivity].
    destruct b as [gs|], b' as [gs'|]; try contradiction; [|reflexivity].
    pose proof (oblivious_completeFlow m R Hm (Express.validationId req)
                  "mcp_tool_validation" true _ _ HR2) as H3.
    destruct (FlowStateManager.completeFlow m _ _ true s2) as [o3 s3].
    destruct (FlowStateManager.completeFlow m _ _ true s2') as [o3' s3'].
    apply agree_inv in H3 as [_ [(c & c' & -> & -> & _) | (e & -> & ->)]];
      reflexivity.
  - rewrite !getValidationStatus_res. rewrite Hres.
    pose proof (oblivious_getFlowState m R Hm (Express.validationId req)
                  "mcp_tool_validation" _ _ HR) as H1.
    destruct (FlowStateManager.getFlowState m _ _ (manager w1)) as [o1 s1].
    destruct (FlowStateManager.getFlowState m _ _ (manager w2)) as [o1' s1'].
    apply agree_inv in H1 as [_ [(a & a' & -> & -> & Ha) | (e & -> & ->)]];
      [|reflexivity].
    destruct a as [fs|], a' as [fs'|]; try contradiction; [|reflexivity].
    destruct Ha as (Hstatus & _ & Herror & _). now rewrite Hstatus, Herror.
Qed.

End StateToken.

(** ** The keyed manager does not look at state tokens *)

Section SpecManagerOblivious.

Import SpecManager.

Lemma get_related (id type : string) (st1 st2 : State) :
  sameStoreButState st1 st2 ->
  match get id type st1, get id type st2 with
  | Some r1, Some r2 => sameRecordButState r1 r2
  | None, None => True
  | _, _ => False
  end.
Proof.
  intros [Hnow Hk]. specialize (Hk (id, type)). unfold get.
  destruct (store st1 !! (id, type)) as [r1|], (store st2 !! (id, type)) as [r2|];
    try contradiction; [|exact I].
  destruct Hk as (Hv & Hc & He). rewrite He, Hnow.
  destruct (expiresAt r2 <? now st2)%Z; [exact I|].
  repeat split; try apply Hv; assumption.
Qed.

Lemma put_related (id type : string) (r1 r2 : FlowRecord) (st1 st2 : State) :
  sameStoreButState st1 st2 -> sameRecordButState r1 r2 ->
  sameStoreButState (put id type r1 st1) (put id type r2 st2).
Proof.
  intros [Hnow Hk] Hr. split; [exact Hnow|].
  intros k. cbn [put store].
  destruct (decide ((id, type) = k)) as [<-|Hne].
  - rewrite !lookup_insert_eq. exact Hr.
  - rewrite !lookup_insert_ne by exact Hne. apply Hk.
Qed.

Lemma specManager_oblivious : tokenOblivious SpecManager.manager sameStoreButState.
Proof.
  split; intros id type; cbn [FlowStateManager.getFlowState
    FlowStateManager.completeFlow FlowStateManager.failFlow SpecManager.manager].
  - intros s1 s2 HR. pose proof (get_related id type s1 s2 HR) as Hg.
    unfold getFlowState, agree; cbn [fst snd]. split; [exact HR|].
    destruct (get id type s1) as [r1|], (get id type s2) as [r2|];
      try contradiction; cbn; [apply Hg | exact I].
  - intros b s1 s2 HR. pose proof (get_related id type s1 s2 HR) as Hg.
    unfold completeFlow.
    destruct (get id type s1) as [r1|], (get id type s2) as [r2|];
      try contradiction; [|split; [exact HR | reflexivity]].
    destruct Hg as (Hv & Hc & He).
    destruct Hv as (Hst & Hres & Herr & Hu & Hs & Ht & Ha & Hts).
    rewrite Hst. destruct (String.eqb (status (view r2)) "PENDING");
      [|split; [exact HR | reflexivity]].
    split; [|reflexivity]. cbn [fst snd].
    apply put_related; [exact HR|].
    repeat split; cbn; assumption.
  - intros e s1 s2 HR. pose proof (get_related id type s1 s2 HR) as Hg.
    unfold failFlow.
    destruct (get id type s1) as [r1|], (get id type s2) as [r2|];
      try contradiction; [|split; [exact HR | reflexivity]].
    destruct Hg as (Hv & Hc & He).
    destruct Hv as (Hst & Hres & Herr & Hu & Hs & Ht & Ha & Hts).
    rewrite Hst. destruct (String.eqb (status (view r2)) "PENDING");
      [|split; [exact HR | reflexivity]].
    split; [|reflexivity]. cbn [fst snd].
    apply put_related; [exact HR|].
    repeat split; cbn; assumption.
Qed.

(** Two single-flow stores whose records differ in the state token only. *)
Lemma singleton_stores_related (t : Z) (id type : string) (r1 r2 : FlowRecord) :
  sameRecordButState r1 r2 ->
  sameStoreButState (mkState t {[(id, type) := r1]}) (mkState t {[(id, type) := r2]}).
Proof.
  intros Hr. split; [reflexivity|]. intros k. cbn [store].
  destruct (decide ((id, type) = k)) as [<-|Hne].
  - rewrite !lookup_singleton_eq. exact Hr.
  - rewrite !lookup_singleton_ne by exact Hne. exact I.
Qed.

End SpecManagerOblivious.

(** ** The routes on sample data *)

Lemma getValidationStatus_response_witness :
  res (snd (getValidationStatus SpecManager.manager sampleRequest
              (startWorld 5 (sampleStore "COMPLETED" "c3RhdGU"))))
  = mkRes 200 (Some (StatusBody "COMPLETED" true false None)).
Proof.
  destruct (proj1 (getValidationStatus_response SpecManager.manager sampleRequest
                     (startWorld 5 (sampleStore "COMPLETED" "c3RhdGU")) eq_refl)
              (SpecManager.view (sampleRecord "COMPLETED" "c3RhdGU")))
    as (completed & failed & Hres & Hcompleted & Hfailed).
  - vm_compute. reflexivity.
  - rewrite Hres. cbn [sampleRecord SpecManager.view status error].
    assert (completed = true) as -> by (apply Hcompleted; reflexivity).
    destruct failed; [|reflexivity].
    assert ("COMPLETED" = "FAILED") by (apply Hfailed; reflexivity). discriminate.
Defined.

Lemma postValidationConfirm_not_found_witness :
  let w := startWorld 5 (SpecManager.empty 5) in
  let out := postValidationConfirm SpecManager.manager sampleRequest w in
  fst (MCPToolCallValidationHandler.getFlowState "u1:srv:tool:1" SpecManager.manager w)
  = Returned None /\
  res (snd out) = mkRes 404 (Some (ErrorBody "Validation flow not found")) /\
  calls (snd out) = [CallGetFlowState "u1:srv:tool:1" "mcp_tool_validation"] /\
  manager (snd out) = SpecManager.empty 5.
Proof.
  cbv zeta. split; [reflexivity|].
  destruct (postValidationConfirm_not_found SpecManager.manager sampleRequest
              (startWorld 5 (SpecManager.empty 5))
              (afterCalls (startWorld 5 (SpecManager.empty 5)) (SpecManager.empty 5)
                 [CallGetFlowState "u1:srv:tool:1" "mcp_tool_validation"])
              eq_refl) as (Hout & Hcalls & Hmanager & _).
  split; [now rewrite Hout|]. split; [exact Hcalls | exact Hmanager].
Defined.

Lemma responses_independent_of_state_token_witness :
  let w1 := startWorld 5 (sampleStore "PENDING" "dG9rZW4tQQ") in
  let w2 := startWorld 5 (sampleStore "PENDING" "dG9rZW4tQg") in
  res (snd (postValidationConfirm SpecManager.manager sampleRequest w1))
  = res (snd (postValidationConfirm SpecManager.manager sampleRequest w2)) /\
  res (snd (getValidationStatus SpecManager.manager sampleRequest w1))
  = res (snd (getValidationStatus SpecManager.manager sampleRequest w2)).
Proof.
  cbv zeta.
  apply (responses_independent_of_state_token SpecManager.manager sameStoreButState
           sampleRequest
           (startWorld 5 (sampleStore "PENDING" "dG9rZW4tQQ"))
           (startWorld 5 (sampleStore "PENDING" "dG9rZW4tQg"))
           specManager_oblivious).
  - apply singleton_stores_related. repeat split.
  - reflexivity.
Defined.

(** On the sample store the confirm route completes the pending flow, and a
    later status poll reports it completed. *)
Example confirm_then_status :
  let w := startWorld 5 (sampleStore "PENDING" "dG9rZW4tQQ") in
  let w1 := snd (postValidationConfirm SpecManager.manager sampleRequest w) in
  res w1 = mkRes 200 (Some SuccessBody) /\
  calls w1 = [CallGetFlowState "u1:srv:tool:1" "mcp_tool_validation";
              CallGetFlowState "u1:srv:tool:1" "mcp_tool_validation";
              CallCompleteFlow "u1:srv:tool:1" "mcp_tool_validation" true] /\
  res (snd (getValidationStatus SpecManager.manager sampleRequest
              (responded w1 freshRes)))
  = mkRes 200 (Some (StatusBody "COMPLETED" true false None)).
Proof. vm_compute. repeat split. Qed.


(** * Further properties of the handler and the routes *)

(** ** Outcomes of [completeValidationFlow] *)

Section CompleteOutcomes.

Context {S : Type} (m : FlowStateManager.t S).

(** When the lookup finds the flow and [completeFlow] returns,
    [completeValidationFlow] returns [true] after exactly two calls on the
    manager, the lookup and [completeFlow(validationId,
    "mcp_tool_validation", true)]; [failFlow] is not called. *)
Theorem completeValidationFlow_completes
    (validationId : string) (w : World S) (fs : FlowState) (s1 s2 : S) (u : unit) :
  FlowStateManager.getFlowState m validationId "mcp_tool_validation" (manager w)
  = (Returned (Some fs), s1) ->
  FlowStateManager.completeFlow m validationId "mcp_tool_validation" true s1
  = (Returned u, s2) ->
  MCPToolCallValidationHandler.completeValidationFlow validationId m w
  = (Returned true,
     afterCalls w s2
       [CallGetFlowState validationId "mcp_tool_validation";
        CallCompleteFlow validationId "mcp_tool_validation" true]).
Proof.
  intros Hget Hcomplete.
  exact (completeValidationFlow_success m validationId w fs s1 s2 u Hget Hcomplete).
Qed.

(** Every run of the [try] block either completes or raises inside. *)
Lemma completes_or_raises (validationId : string) (s : S) :
  (exists fs s1 u s2,
      FlowStateManager.getFlowState m validationId
        MCPToolCallValidationHandler.FLOW_TYPE s = (Returned (Some fs), s1) /\
      FlowStateManager.completeFlow m validationId
        MCPToolCallValidationHandler.FLOW_TYPE true s1 = (Returned u, s2)) \/
  (exists e s1 tr, raisesInside m validationId s e s1 tr).
Proof.
  destruct (FlowStateManager.getFlowState m validationId
              MCPToolCallValidationHandler.FLOW_TYPE s) as [[[fs|]|e] s1] eqn:Hget.
  - destruct (FlowStateManager.completeFlow m validationId
                MCPToolCallValidationHandler.FLOW_TYPE true s1) as [[u|e] s2] eqn:Hc.
    + left. eauto 6.
    + right. exists e, s2. eexists. eapply raises_complete; eauto.
  - right. eexists _, s1, _. apply raises_not_found. exact Hget.
  - right. exists e, s1. eexists. apply raises_lookup. exact Hget.
Qed.

Lemma raisesInside_no_failFlow (validationId : string) (s : S)
    (e : Error) (s1 : S) (tr : list ManagerCall) :
  raisesInside m validationId s e s1 tr ->
  forall id type e1, ~ In (CallFailFlow id type e1) tr.
Proof.
  intros [e0 s0 _ | s0 _ | fs s0 e0 s2 _ _] id type e1 Hin; cbn in Hin;
    repeat (destruct Hin as [Hin | Hin]; [discriminate|]); exact Hin.
Qed.

(** For every manager and every validationId, [completeValidationFlow]
    either returns [true], having called the lookup and [completeFlow] and
    nothing else, or throws, having called [failFlow] exactly once, as its
    last call on the manager.  It never returns [false]. *)
Theorem completeValidationFlow_outcomes (validationId : string) (w : World S) :
  let out := MCPToolCallValidationHandler.completeValidationFlow validationId m w in
  (fst out = Returned true /\
   exists s2,
     snd out = afterCalls w s2
                 [CallGetFlowState validationId "mcp_tool_validation";
                  CallCompleteFlow validationId "mcp_tool_validation" true]) \/
  (exists e0 e s2 tr,
      fst out = Thrown e /\
      snd out = afterCalls w s2
                  (tr ++ [CallFailFlow validationId "mcp_tool_validation" e0]) /\
      forall id type e1, ~ In (CallFailFlow id type e1) tr).
Proof.
  intros out. subst out.
  destruct (completes_or_raises validationId (manager w))
    as [(fs & s1 & u & s2 & Hget & Hc) | (e & s1 & tr & Hraise)].
  - left. rewrite (completeValidationFlow_success m validationId w fs s1 s2 u Hget Hc).
    split; [reflexivity | eauto].
  - right.
    destruct (FlowStateManager.failFlow m validationId
                MCPToolCallValidationHandler.FLOW_TYPE e s1) as [r s2] eqn:Hfail.
    rewrite (completeValidationFlow_catch m validationId w e s1 tr r s2 Hraise Hfail).
    exists e, (match r with Returned _ => e | Thrown e' => e' end), s2, tr.
    split; [reflexivity|]. split; [reflexivity|].
    exact (raisesInside_no_failFlow validationId (manager w) e s1 tr Hraise).
Qed.

(** The handler's [getFlowState] is a single read: whatever the lookup
    does, the one call made on the manager is that lookup.  A flow that is
    found is answered by its metadata, a missing one by null, and a failing
    lookup throws its error on to the caller unchanged, with no [failFlow]
    call. *)
Theorem handler_getFlowState_single_read (validationId : string) (w : World S) :
  let lookup := FlowStateManager.getFlowState m validationId
                  "mcp_tool_validation" (manager w) in
  let out := MCPToolCallValidationHandler.getFlowState validationId m w in
  snd out = afterCalls w (snd lookup)
              [CallGetFlowState validationId "mcp_tool_validation"] /\
  (forall fs, fst lookup = Returned (Some fs) ->
              fst out = Returned (Some (metadata fs))) /\
  (fst lookup = Returned None -> fst out = Returned None) /\
  (forall e, fst lookup = Thrown e -> fst out = Thrown e).
Proof.
  intros lookup out. subst out lookup. rewrite handler_getFlowState_run.
  unfold MCPToolCallValidationHandler.FLOW_TYPE. cbn [fst snd].
  split; [reflexivity|].
  split; [|split]; [intros fs H | intros H | intros e H]; rewrite H; reflexivity.
Qed.

End CompleteOutcomes.

Lemma completeValidationFlow_completes_witness :
  let w := startWorld 5 (sampleStore "PENDING" "dG9rZW4tQQ") in
  let out := MCPToolCallValidationHandler.completeValidationFlow "u1:srv:tool:1"
               SpecManager.manager w in
  fst out = Returned true /\
  calls (snd out) = [CallGetFlowState "u1:srv:tool:1" "mcp_tool_validation";
                     CallCompleteFlow "u1:srv:tool:1" "mcp_tool_validation" true].
Proof.
  cbv zeta.
  rewrite (completeValidationFlow_completes SpecManager.manager "u1:srv:tool:1"
             (startWorld 5 (sampleStore "PENDING" "dG9rZW4tQQ"))
             (SpecManager.view (sampleRecord "PENDING" "dG9rZW4tQQ"))
             (sampleStore "PENDING" "dG9rZW4tQQ")
             (snd (SpecManager.completeFlow "u1:srv:tool:1" "mcp_tool_validation" true
                     (sampleStore "PENDING" "dG9rZW4tQQ")))
             tt).
  - split; reflexivity.
  - vm_compute. reflexivity.
  - vm_compute. reflexivity.
Defined.

(** ** Outcomes of the routes *)

Section RouteOutcomes.

Context {S : Type} (m : FlowStateManager.t S).

Lemma postValidationConfirm_returns (req : Express.Request) (w : World S) :
  fst (postValidationConfirm m req w) = Returned tt.
Proof.
  unfold postValidationConfirm, MCPToolCallValidationHandler.getFlowState,
    MCPToolCallValidationHandler.completeValidationFlow,
    MCPToolCallValidationHandler.FLOW_TYPE, tryCatch, bind, invoke.
  destruct (FlowStateManager.getFlowState m _ _ (manager w)) as [[[fs|]|e] s1];
    cbn; try reflexivity.
  destruct (FlowStateManager.getFlowState m _ _ s1) as [[[fs'|]|e'] s2]; cbn.
  - destruct (FlowStateManager.completeFlow m _ _ true s2) as [[u|e3] s3]; cbn;
      [reflexivity|].
    destruct (FlowStateManager.failFlow m _ _ e3 s3) as [[u|e4] s4]; reflexivity.
  - destruct (FlowStateManager.failFlow m _ _ _ s2) as [[u|e4] s4]; reflexivity.
  - destruct (FlowStateManager.failFlow m _ _ e' s2) as [[u|e4] s4]; reflexivity.
Qed.

(** The confirm route looks the flow up twice: once itself, once inside
    [completeValidationFlow].  When both lookups find the flow and
    [completeFlow] returns, the route sends [{success: true}] without
    touching the status code, after exactly the three calls lookup, lookup,
    [completeFlow(validationId, "mcp_tool_validation", true)]. *)
Theorem postValidationConfirm_success
    (req : Express.Request) (w : World S)
    (fs1 fs2 : FlowState) (s1 s2 s3 : S) (u : unit) :
  let validationId := Express.validationId req in
  FlowStateManager.getFlowState m validationId "mcp_tool_validation" (manager w)
  = (Returned (Some fs1), s1) ->
  FlowStateManager.getFlowState m validationId "mcp_tool_validation" s1
  = (Returned (Some fs2), s2) ->
  FlowStateManager.completeFlow m validationId "mcp_tool_validation" true s2
  = (Returned u, s3) ->
  postValidationConfirm m req w
  = (Returned tt,
     responded
       (afterCalls w s3
          [CallGetFlowState validationId "mcp_tool_validation";
           CallGetFlowState validationId "mcp_tool_validation";
           CallCompleteFlow validationId "mcp_tool_validation" true])
       (mkRes (statusCode (res w)) (Some SuccessBody))).
Proof.
  intros validationId Hget1 Hget2 Hcomplete. subst validationId.
  unfold postValidationConfirm, tryCatch, bind.
  rewrite handler_getFlowState_run. unfold MCPToolCallValidationHandler.FLOW_TYPE.
  rewrite Hget1. cbn [fst snd fmap option_fmap option_map].
  rewrite (completeValidationFlow_success m (Express.validationId req)
             (afterCalls w s1 [CallGetFlowState (Express.validationId req)
                                 "mcp_tool_validation"])
             fs2 s2 s3 u Hget2 Hcomplete).
  unfold res_json, responded, afterCalls. cbn. rewrite <- app_assoc. reflexivity.
Qed.

(** The confirm route never throws and always answers, whatever the manager
    does: with 404 "Validation flow not found", with 500 "Failed to confirm
    validation", or with [{success: true}] under the status code it found. *)
Theorem postValidationConfirm_always_responds (req : Express.Request) (w : World S) :
  let out := postValidationConfirm m req w in
  fst out = Returned tt /\
  (res (snd out) = mkRes 404 (Some (ErrorBody "Validation flow not found")) \/
   res (snd out) = mkRes 500 (Some (ErrorBody "Failed to confirm validation")) \/
   res (snd out) = mkRes (statusCode (res w)) (Some SuccessBody)).
Proof.
  intros out. subst out. split; [apply postValidationConfirm_returns|].
  rewrite postValidationConfirm_res. cbv zeta.
  destruct (FlowStateManager.getFlowState m _ _ (manager w)) as [[[fs|]|e] s1]; auto.
  destruct (FlowStateManager.getFlowState m _ _ s1) as [[[fs'|]|e'] s2]; auto.
  destruct (FlowStateManager.completeFlow m _ _ true s2) as [[u|e3] s3]; auto.
Qed.

(** A failure of the manager on the confirm route is answered 500 "Failed to
    confirm validation", with the same body whatever the error was: when the
    route's own lookup throws, and when the lookup finds the flow but an
    error then arises inside [completeValidationFlow] (whether or not the
    [failFlow] call that follows succeeds). *)
Theorem postValidationConfirm_manager_failure (req : Express.Request) (w : World S) :
  let validationId := Express.validationId req in
  ((exists e s1,
       FlowStateManager.getFlowState m validationId "mcp_tool_validation" (manager w)
       = (Thrown e, s1)) \/
   (exists fs s1 e s2 tr,
       FlowStateManager.getFlowState m validationId "mcp_tool_validation" (manager w)
       = (Returned (Some fs), s1) /\
       raisesInside m validationId s1 e s2 tr)) ->
  let out := postValidationConfirm m req w in
  fst out = Returned tt /\
  res (snd out) = mkRes 500 (Some (ErrorBody "Failed to confirm validation")).
Proof.
  intros validationId Hfail out. subst out validationId.
  split; [apply postValidationConfirm_returns|].
  rewrite postValidationConfirm_res. cbv zeta.
  destruct Hfail as [(e & s1 & Hget) | (fs & s1 & e & s2 & tr & Hget & Hraise)];
    rewrite Hget; [reflexivity|].
  destruct Hraise as [e s2 Hget2 | s2 Hget2 | fs2 s2 e s3 Hget2 Hcomplete];
    unfold MCPToolCallValidationHandler.FLOW_TYPE in *;
    rewrite Hget2; [reflexivity | reflexivity |].
  rewrite Hcomplete. reflexivity.
Qed.

(** When the flow is there for the route's lookup but gone for the lookup
    inside [completeValidationFlow], the confirm route answers 500, not 404,
    and [failFlow] has been called on the missing key with the error
    "Validation flow not found". *)
Theorem postValidationConfirm_flow_vanishes
    (req : Express.Request) (w : World S) (fs : FlowState) (s1 s2 : S) :
  let validationId := Express.validationId req in
  FlowStateManager.getFlowState m validationId "mcp_tool_validation" (manager w)
  = (Returned (Some fs), s1) ->
  FlowStateManager.getFlowState m validationId "mcp_tool_validation" s1
  = (Returned None, s2) ->
  let e := JsError "Validation flow not found" in
  let marked := FlowStateManager.failFlow m validationId "mcp_tool_validation" e s2 in
  postValidationConfirm m req w
  = (Returned tt,
     responded
       (afterCalls w (snd marked)
          [CallGetFlowState validationId "mcp_tool_validation";
           CallGetFlowState validationId "mcp_tool_validation";
           CallFailFlow validationId "mcp_tool_validation" e])
       (mkRes 500 (Some (ErrorBody "Failed to confirm validation")))).
Proof.
  intros validationId Hget1 Hget2 e marked. subst validationId.
  unfold postValidationConfirm, tryCatch, bind.
  rewrite handler_getFlowState_run. unfold MCPToolCallValidationHandler.FLOW_TYPE.
  rewrite Hget1. cbn [fst snd fmap option_fmap option_map].
  rewrite (completeValidationFlow_catch m (Express.validationId req)
             (afterCalls w s1 [CallGetFlowState (Express.validationId req)
                                 "mcp_tool_validation"])
             e s2 _ (fst marked) (snd marked)
             (raises_not_found m (Express.validationId req) s1 s2 Hget2)
             (surjective_pairing _)).
  unfold res_json, res_status, responded, afterCalls. cbn.
  rewrite <- app_assoc. reflexivity.
Qed.

(** The status route only reads: whatever the manager does, the route never
    throws, always sends a body, and the one call it makes on the manager is
    the lookup ([completeFlow] and [failFlow] are never called, not even
    when the lookup fails, which is answered 500 "Failed to get validation
    status"). *)
Theorem getValidationStatus_read_only (req : Express.Request) (w : World S) :
  let validationId := Express.validationId req in
  let lookup := FlowStateManager.getFlowState m validationId
                  "mcp_tool_validation" (manager w) in
  let out := getValidationStatus m req w in
  fst out = Returned tt /\
  calls (snd out) = (calls w ++ [CallGetFlowState validationId "mcp_tool_validation"])%list /\
  manager (snd out) = snd lookup /\
  sent (res (snd out)) <> None /\
  (forall e, fst lookup = Thrown e ->
     res (snd out) = mkRes 500 (Some (ErrorBody "Failed to get validation status"))).
Proof.
  intros validationId lookup out. subst out lookup validationId.
  unfold getValidationStatus, tryCatch, bind, invoke.
  destruct (FlowStateManager.getFlowState m _ _ (manager w)) as [[[fs|]|e] s1]; cbn;
    repeat split; try discriminate; intros e0 H; discriminate.
Qed.

(** In a status response [completed] and [failed] are never both true, and
    both are false exactly when the stored status is neither "COMPLETED" nor
    "FAILED". *)
Theorem getValidationStatus_flags_exclusive
    (req : Express.Request) (w : World S)
    (st : string) (completed failed : bool) (err : option Error) :
  sent (res (snd (getValidationStatus m req w)))
  = Some (StatusBody st completed failed err) ->
  completed && failed = false /\
  (completed || failed = false <-> st <> "COMPLETED" /\ st <> "FAILED").
Proof.
  rewrite getValidationStatus_res.
  destruct (FlowStateManager.getFlowState m _ _ (manager w)) as [[[fs|]|e] s1]; cbn;
    try discriminate.
  intros [= <- <- <- _].
  destruct (String.eqb_spec (status fs) "COMPLETED") as [Hc|Hc],
           (String.eqb_spec (status fs) "FAILED") as [Hf|Hf]; cbn.
  - rewrite Hc in Hf. discriminate.
  - split; [reflexivity|]. split; [discriminate | intros [? _]; contradiction].
  - split; [reflexivity|]. split; [discriminate | intros [_ ?]; contradiction].
  - split; [reflexivity|]. split; [auto | reflexivity].
Qed.

End RouteOutcomes.

Lemma postValidationConfirm_success_witness :
  let w := startWorld 5 (sampleStore "PENDING" "dG9rZW4tQQ") in
  let out := postValidationConfirm SpecManager.manager sampleRequest w in
  fst out = Returned tt /\
  res (snd out) = mkRes 200 (Some SuccessBody) /\
  calls (snd out) = [CallGetFlowState "u1:srv:tool:1" "mcp_tool_validation";
                     CallGetFlowState "u1:srv:tool:1" "mcp_tool_validation";
                     CallCompleteFlow "u1:srv:tool:1" "mcp_tool_validation" true].
Proof.
  cbv zeta.
  rewrite (postValidationConfirm_success SpecManager.manager sampleRequest
             (startWorld 5 (sampleStore "PENDING" "dG9rZW4tQQ"))
             (SpecManager.view (sampleRecord "PENDING" "dG9rZW4tQQ"))
             (SpecManager.view (sampleRecord "PENDING" "dG9rZW4tQQ"))
             (sampleStore "PENDING" "dG9rZW4tQQ")
             (sampleStore "PENDING" "dG9rZW4tQQ")
             (snd (SpecManager.completeFlow "u1:srv:tool:1" "mcp_tool_validation" true
                     (sampleStore "PENDING" "dG9rZW4tQQ")))
             tt).
  - repeat split.
  - vm_compute. reflexivity.
  - vm_compute. reflexivity.
  - vm_compute. reflexivity.
Defined.

Lemma postValidationConfirm_manager_failure_witness :
  let out := postValidationConfirm unreachableManager sampleRequest (startWorld 5 tt) in
  fst out = Returned tt /\
  res (snd out) = mkRes 500 (Some (ErrorBody "Failed to confirm validation")).
Proof.
  apply (postValidationConfirm_manager_failure unreachableManager sampleRequest
           (startWorld 5 tt)).
  left. exists (StorageFailure "getFlowState"), tt. reflexivity.
Defined.

Lemma postValidationConfirm_flow_vanishes_witness :
  let fs := SpecManager.view (sampleRecord "PENDING" "dG9rZW4tQQ") in
  let out := postValidationConfirm vanishingManager sampleRequest
               (startWorld 5 (Some fs)) in
  res (snd out) = mkRes 500 (Some (ErrorBody "Failed to confirm validation")) /\
  calls (snd out) = [CallGetFlowState "u1:srv:tool:1" "mcp_tool_validation";
                     CallGetFlowState "u1:srv:tool:1" "mcp_tool_validation";
                     CallFailFlow "u1:srv:tool:1" "mcp_tool_validation"
                       (JsError "Validation flow not found")].
Proof.
  cbv zeta.
  rewrite (postValidationConfirm_flow_vanishes vanishingManager sampleRequest
             (startWorld 5 (Some (SpecManager.view (sampleRecord "PENDING" "dG9rZW4tQQ"))))
             (SpecManager.view (sampleRecord "PENDING" "dG9rZW4tQQ")) None None
             eq_refl eq_refl).
  split; reflexivity.
Defined.

Lemma getValidationStatus_flags_exclusive_witness :
  false && false = false /\
  (false || false = false <-> "PENDING" <> "COMPLETED" /\ "PENDING" <> "FAILED").
Proof.
  apply (getValidationStatus_flags_exclusive SpecManager.manager sampleRequest
           (startWorld 5 (sampleStore "PENDING" "dG9rZW4tQQ"))
           "PENDING" false false None).
  vm_compute. reflexivity.
Defined.

(** ** The validation identifier and the state token, continued *)

Section Identifiers.

Lemma append_cancel_l (a x y : string) : a +:+ x = a +:+ y -> x = y.
Proof.
  induction a as [|c a IH]; [trivial|].
  rewrite !append_cons. intros [= H]. exact (IH H).
Qed.

Lemma numberToString_inj (n1 n2 : Z) : numberToString n1 = numberToString n2 -> n1 = n2.
Proof.
  intros H. pose proof (numberToString_parse n1) as H1.
  rewrite H, numberToString_parse in H1. congruence.
Qed.

(** Two strings made of a colon-free head, a colon and a tail are equal
    only if heads and tails are. *)
Lemma colon_split_inj (a b x y : string) :
  includes a ":" = false -> includes b ":" = false ->
  a +:+ ":" +:+ x = b +:+ ":" +:+ y -> a = b /\ x = y.
Proof.
  revert b. induction a as [|c a IH]; intros [|d b] Ha Hb;
    cbn [includes] in *; rewrite ?append_nil, ?append_cons; intros H.
  - injection H as H. split; [reflexivity | assumption].
  - injection H as H1 H2. subst d. apply orb_false_iff in Hb as [Hd _]. discriminate.
  - injection H as H1 H2. subst c. apply orb_false_iff in Ha as [Hc _]. discriminate.
  - injection H as H1 H2. subst d.
    apply orb_false_iff in Ha as [_ Ha]. apply orb_false_iff in Hb as [_ Hb].
    destruct (IH b Ha Hb H2) as [-> ->]. split; reflexivity.
Qed.

Context {S : Type}.

(** For the same user, server and tool, two generated validationIds are
    equal exactly when the two clock readings are equal: the timestamp is
    all that tells two flows of the same tool call apart, and two flows
    started within the same millisecond share their id. *)
Theorem generateValidationId_equal_iff_same_reading
    (userId serverName toolName : string) (w1 w2 : World S) :
  fst (MCPToolCallValidationHandler.generateValidationId userId serverName toolName w1)
  = fst (MCPToolCallValidationHandler.generateValidationId userId serverName toolName w2)
  <-> clock w1 (ticks w1) = clock w2 (ticks w2).
Proof.
  rewrite !generateValidationId_run. cbn [fst]. split.
  - intros [= H].
    do 6 apply append_cancel_l in H. now apply numberToString_inj.
  - intros ->. reflexivity.
Qed.

(** When user ids, server names and tool names contain no colon, the
    validationId determines all its parts: two equal ids come from the same
    user, server and tool and from equal clock readings. *)
Theorem generateValidationId_injective
    (u1 s1 t1 u2 s2 t2 : string) (w1 w2 : World S) :
  includes u1 ":" = false -> includes s1 ":" = false -> includes t1 ":" = false ->
  includes u2 ":" = false -> includes s2 ":" = false -> includes t2 ":" = false ->
  fst (MCPToolCallValidationHandler.generateValidationId u1 s1 t1 w1)
  = fst (MCPToolCallValidationHandler.generateValidationId u2 s2 t2 w2) ->
  u1 = u2 /\ s1 = s2 /\ t1 = t2 /\ clock w1 (ticks w1) = clock w2 (ticks w2).
Proof.
  intros Hu1 Hs1 Ht1 Hu2 Hs2 Ht2. rewrite !generateValidationId_run. cbn [fst].
  intros [= H].
  apply colon_split_inj in H as [-> H]; [|assumption..].
  apply colon_split_inj in H as [-> H]; [|assumption..].
  apply colon_split_inj in H as [-> H]; [|assumption..].
  apply numberToString_inj in H. auto.
Qed.

(** The owner passes the guard: for a non-empty user id, a request
    authenticated as that user and carrying the validationId that
    [initiateValidationFlow] returned for that user gets no response from
    the guard, whatever the server name, tool name and clock. *)
Theorem validationIDUserGuard_accepts_owner {S'}
    (userId serverName toolName : string) (toolArguments : list (string * JsValue))
    (w0 : World S') (w : World S) :
  userId <> "" ->
  exists validationId flowMetadata w0',
    MCPToolCallValidationHandler.initiateValidationFlow
      userId serverName toolName toolArguments w0
    = (Returned (validationId, flowMetadata), w0') /\
    validationIDUserGuard
      (Express.mkRequest (Some (Express.mkUser (Some userId))) validationId) w
    = (Returned tt, w).
Proof.
  intros Hne. rewrite initiateValidationFlow_run.
  eexists _, _, _. split; [reflexivity|].
  unfold validationIDUserGuard. cbn.
  apply String.eqb_neq in Hne. rewrite Hne. cbn.
  change (String.prefix ?a ?b) with (startsWith b a).
  rewrite <- append_assoc, startsWith_append. reflexivity.
Qed.

(** The state token is URL-safe: each of its characters is a letter, a
    digit, "-" or "_". *)
Theorem generateState_url_safe (w : World S) :
  exists token w',
    MCPToolCallValidationHandler.generateState w = (Returned token, w') /\
    forall c, includes token c = true -> includes Base64Url.alphabet c = true.
Proof.
  eexists _, _. split; [reflexivity|].
  generalize (map (entropy w) (seq (drawn w) 32)) as bs.
  assert (Hsx : forall i c, Ascii.eqb (Base64Url.encodeSextet i) c = true ->
                            includes Base64Url.alphabet c = true).
  { intros i c Hc. apply Ascii.eqb_eq in Hc as <-.
    unfold Base64Url.encodeSextet. generalize (N.to_nat i) as n. intros n.
    do 64 (destruct n as [|n]; [reflexivity|]). reflexivity. }
  intros bs. induction bs as [|b0|b0 b1|b0 b1 b2 rest IH] using Base64UrlFacts.list_ind3;
    intros c; cbn [Base64Url.encode includes]; rewrite ?orb_true_iff, ?orb_false_r;
    intuition eauto; discriminate.
Qed.

(** The state token keeps all of the randomness: two tokens are equal only
    if the 32 bytes they were made from are equal. *)
Theorem generateState_injective (w1 w2 : World S) :
  fst (MCPToolCallValidationHandler.generateState w1)
  = fst (MCPToolCallValidationHandler.generateState w2) ->
  map (entropy w1) (seq (drawn w1) 32) = map (entropy w2) (seq (drawn w2) 32).
Proof.
  unfold MCPToolCallValidationHandler.generateState, bind, randomBytes, ret.
  cbn [fst].
  generalize (map (entropy w1) (seq (drawn w1) 32)) as bs1.
  generalize (map (entropy w2) (seq (drawn w2) 32)) as bs2.
  intros bs2 bs1 Heq. injection Heq as Heq.
  pose proof (Base64UrlFacts.decode_encode bs1) as Hdec.
  rewrite Heq, Base64UrlFacts.decode_encode in Hdec. congruence.
Qed.

End Identifiers.

Lemma generateValidationId_injective_witness :
  let w1 := startWorld 5 tt in
  let w2 := mkWorld (fun n => 2 + Z.of_nat n) 3%nat byteOfNat 0%nat tt [] freshRes in
  fst (MCPToolCallValidationHandler.generateValidationId "u1" "srv" "tool" w1)
  = fst (MCPToolCallValidationHandler.generateValidationId "u1" "srv" "tool" w2) /\
  "u1" = "u1" /\ "srv" = "srv" /\ "tool" = "tool" /\
  clock w1 (ticks w1) = clock w2 (ticks w2).
Proof.
  cbv zeta. split; [reflexivity|].
  apply (generateValidationId_injective "u1" "srv" "tool" "u1" "srv" "tool"
           (startWorld 5 tt)
           (mkWorld (fun n => 2 + Z.of_nat n) 3%nat byteOfNat 0%nat tt [] freshRes));
    reflexivity.
Defined.

Lemma validationIDUserGuard_accepts_owner_witness :
  exists validationId flowMetadata w0',
    MCPToolCallValidationHandler.initiateValidationFlow "u1" "srv" "tool"
      [("a", JsNumber 1)] (startWorld 1700000000000 tt)
    = (Returned (validationId, flowMetadata), w0') /\
    validationIDUserGuard
      (Express.mkRequest (Some (Express.mkUser (Some "u1"))) validationId)
      (startWorld 1700000000005 (SpecManager.empty 1700000000005))
    = (Returned tt, startWorld 1700000000005 (SpecManager.empty 1700000000005)).
Proof.
  apply (validationIDUserGuard_accepts_owner "u1" "srv" "tool" [("a", JsNumber 1)]
           (startWorld 1700000000000 tt)
           (startWorld 1700000000005 (SpecManager.empty 1700000000005))).
  discriminate.
Defined.

Lemma generateState_injective_witness :
  map (entropy (startWorld 0 tt)) (seq (drawn (startWorld 0 tt)) 32)
  = map (entropy (startWorld 7 tt)) (seq (drawn (startWorld 7 tt)) 32).
Proof.
  apply (generateState_injective (startWorld 0 tt) (startWorld 7 tt)).
  reflexivity.
Defined.
